(** * Ride_Sharing_System.cpp: a shallow embedding and its properties

    The program computes with C++ [double] (IEEE 754 binary64, every
    operation rounded to nearest, ties to even) and prints through
    [std::cout], whose formatting flags ([std::fixed], [std::setprecision])
    are sticky.  Both are modelled as the code has them: doubles are
    [spec_float] values with the binary64 operations of the Standard
    Library, and the stream is a record holding the flags and the text
    written so far.  A [std::shared_ptr<Ride>] may be null and a vector is
    indexed without a bounds check, so the reporting routines run in a small
    error monad over the stream where [None] stands for undefined
    behaviour.

    Assumed of the compiler: [double] expressions are evaluated in binary64
    itself, one rounding per operation (no extended precision, no fused
    multiply-add).  A NaN has no sign here, while the machine gives it one
    and prints it ([nan] or [-nan], which one depends on the platform and
    on the order of the operands); what is stated about a printed sum is
    therefore stated for sums that are not a NaN.  An [int] is an integer
    in range, a [size_t] a natural number; running out of memory is not
    modelled. *)

From Stdlib Require Import ZArith NArith List String Ascii Bool Lia.
From Stdlib Require Import Permutation DecimalString.
From Stdlib Require Import Floats.SpecFloat.
Import ListNotations.

Local Open Scope string_scope.

(** ** IEEE 754 binary64 *)

Module Double.

Definition prec : Z := 53.
Definition emax : Z := 1024.

Definition double : Type := spec_float.

Definition mul : double -> double -> double := SFmul prec emax.
Definition add : double -> double -> double := SFadd prec emax.
Definition div : double -> double -> double := SFdiv prec emax.

(** [x == y], [x <= y] and [x < y] on doubles: false as soon as one side
    is a NaN, and the two zeros compare equal. *)
Definition eqb : double -> double -> bool := SFeqb.
Definition leb : double -> double -> bool := SFleb.
Definition ltb : double -> double -> bool := SFltb.

Definition is_nan (x : double) : bool :=
  match x with S754_nan => true | _ => false end.

(** An integer that fits the mantissa, as a double. *)
Definition of_Z (n : Z) : double := binary_normalize prec emax n 0 false.

(** A decimal literal [n / 10^k] of the source text.  Numerator and
    denominator are exact doubles here, so the correctly rounded quotient
    is the double nearest to the decimal, which is what the compiler
    stores for the literal. *)
Definition literal (n : Z) (k : nat) : double :=
  div (of_Z n) (of_Z (10 ^ Z.of_nat k)).

Definition zero : double := S754_zero false.                 (* 0.0 *)
Definition d2_0 : double := Eval vm_compute in literal 20 1. (* 2.0 *)
Definition d3_5 : double := Eval vm_compute in literal 35 1. (* 3.5 *)
Definition d1_8 : double := Eval vm_compute in literal 18 1. (* 1.8 *)
Definition d6_3 : double := Eval vm_compute in literal 63 1. (* 6.3 *)

End Double.
Import Double.

(** ** Text conversions of the stream library

    [operator<<] is library code: an [int] or a [size_t] is written in
    decimal; a [double] is converted as [printf] does with ["%.*f"] when the
    stream is in [std::fixed] mode and with ["%.*g"] otherwise, rounding the
    exact binary value to nearest, ties to even.  The sign of a NaN is not
    part of [spec_float]; a NaN is written without one. *)

Module Format.

Definition nl : string := String (ascii_of_nat 10) "".

Definition show_Z (z : Z) : string := NilZero.string_of_int (Z.to_int z).
Definition show_N (n : N) : string := show_Z (Z.of_N n).

(** [num / den] rounded to the nearest integer, ties to even
    ([0 <= num], [0 < den]). *)
Definition round_div (num den : Z) : Z :=
  let q := (num / den)%Z in
  match (2 * (num mod den) ?= den)%Z with
  | Lt => q
  | Gt => (q + 1)%Z
  | Eq => if Z.even q then q else (q + 1)%Z
  end.

(** The fraction [m * 2^e * 10^k], numerator and denominator. *)
Definition scaled (m : positive) (e k : Z) : Z * Z :=
  ((Zpos m * 2 ^ Z.max e 0 * 10 ^ Z.max k 0)%Z,
   (2 ^ Z.max (- e) 0 * 10 ^ Z.max (- k) 0)%Z).

(** [n] written with exactly [k] digits, leading zeros kept
    ([0 <= n < 10^k]). *)
Definition pad_digits (k : nat) (n : Z) : string :=
  substring 1 k (show_Z (10 ^ Z.of_nat k + n)).

Fixpoint strip_zeros (s : string) : string :=
  match s with
  | EmptyString => EmptyString
  | String c s' =>
      match strip_zeros s' with
      | EmptyString => if Ascii.eqb c "0" then EmptyString else String c EmptyString
      | t => String c t
      end
  end.

Definition sign_text (s : bool) : string := if s then "-" else "".

(** The decimal [q / 10^p] with [p] digits after the point. *)
Definition fixed_digits (p : nat) (q : Z) : string :=
  let P := (10 ^ Z.of_nat p)%Z in
  show_Z (q / P) ++
  match p with
  | O => ""
  | S _ => "." ++ pad_digits p (q mod P)
  end.

(** ["%.pf"] *)
Definition show_fixed (p : nat) (x : double) : string :=
  match x with
  | S754_nan => "nan"
  | S754_infinity s => sign_text s ++ "inf"
  | S754_zero s => sign_text s ++ fixed_digits p 0
  | S754_finite s m e =>
      let '(n, d) := scaled m e (Z.of_nat p) in
      sign_text s ++ fixed_digits p (round_div n d)
  end.

(** Largest [X] at or below the start with [10^X <= m * 2^e]. *)
Fixpoint search_exp10 (fuel : nat) (m : positive) (e X : Z) : Z :=
  match fuel with
  | O => X
  | S fuel' =>
      let '(n, d) := scaled m e (- X) in
      if (d <=? n)%Z then X else search_exp10 fuel' m e (X - 1)%Z
  end.

(** [floor (log10 (m * 2^e))], from the binary logarithm. *)
Definition exp10 (m : positive) (e : Z) : Z :=
  search_exp10 4 m e (((Z.log2 (Zpos m) + e) * 30103) / 100000 + 2)%Z.

(** The digits [r] with [k] of them after the point, trailing zeros
    removed, as ["%g"] does. *)
Definition general_plain (r : Z) (k : nat) : string :=
  let P := (10 ^ Z.of_nat k)%Z in
  let frac := strip_zeros (pad_digits k (r mod P)) in
  show_Z (r / P) ++
  match frac with
  | EmptyString => ""
  | _ => "." ++ frac
  end.

Definition show_exponent (X : Z) : string :=
  (if (X <? 0)%Z then "e-" else "e+") ++
  (if (Z.abs X <? 10)%Z then "0" else "") ++ show_Z (Z.abs X).

(** ["%.pg"] *)
Definition show_general (p : nat) (x : double) : string :=
  let P := match p with O => 1%nat | _ => p end in
  match x with
  | S754_nan => "nan"
  | S754_infinity s => sign_text s ++ "inf"
  | S754_zero s => sign_text s ++ "0"
  | S754_finite s m e =>
      let X0 := exp10 m e in
      let '(n, d) := scaled m e (Z.of_nat P - 1 - X0) in
      let r0 := round_div n d in
      let carry := (10 ^ Z.of_nat P <=? r0)%Z in
      let r := if carry then (r0 / 10)%Z else r0 in
      let X := if carry then (X0 + 1)%Z else X0 in
      sign_text s ++
      if ((-4 <=? X) && (X <? Z.of_nat P))%Z
      then general_plain r (Z.to_nat (Z.of_nat P - 1 - X))
      else general_plain r (P - 1) ++ show_exponent X
  end.

End Format.
Import Format.

(** ** [std::cout]

    The stream keeps the float-field flag and the precision between
    insertions ([std::fixed] and [std::setprecision] are sticky) and
    accumulates the text written. *)

Record ostream : Type := mk_ostream {
  fixed_flag : bool;      (* floatfield is [std::fixed] *)
  precision : nat;        (* [std::setprecision], 6 at start *)
  text : string           (* everything written so far *)
}.

Definition cout : ostream := mk_ostream false 6 "".

Inductive manipulator : Type :=
| endl
| fixed
| setprecision (n : nat).

Definition write (os : ostream) (s : string) : ostream :=
  mk_ostream (fixed_flag os) (precision os) (text os ++ s).

Definition show_double (is_fixed : bool) (prec : nat) (x : double) : string :=
  if is_fixed then show_fixed prec x else show_general prec x.

Definition apply_manipulator (os : ostream) (m : manipulator) : ostream :=
  match m with
  | endl => write os nl
  | fixed => mk_ostream true (precision os) (text os)
  | setprecision n => mk_ostream (fixed_flag os) n (text os)
  end.

(** The overloads of [operator<<] the program uses. *)
Class Insertable (A : Type) : Type := insert : ostream -> A -> ostream.

#[export] Instance insert_string : Insertable string := write.
#[export] Instance insert_int : Insertable Z := fun os n => write os (show_Z n).
#[export] Instance insert_size_t : Insertable N := fun os n => write os (show_N n).
#[export] Instance insert_double : Insertable double :=
  fun os x => write os (show_double (fixed_flag os) (precision os) x).
#[export] Instance insert_manipulator : Insertable manipulator := apply_manipulator.

Notation "os << x" := (insert os x) (at level 50, left associativity).

(** ** The ride hierarchy *)

(** [class Ride]: the data members. *)
Record Ride : Type := mk_Ride {
  rideID : Z;
  pickupLocation : string;
  dropoffLocation : string;
  distance : double;
  baseFareRate : double
}.

Definition set_baseFareRate (r : Ride) (rate : double) : Ride :=
  mk_Ride (rideID r) (pickupLocation r) (dropoffLocation r) (distance r) rate.

(** [class StandardRide : public Ride] adds no member. *)
Record StandardRide : Type := mk_StandardRide {
  standard_base : Ride
}.

(** [class PremiumRide : public Ride] adds [luxuryMultiplier]. *)
Record PremiumRide : Type := mk_PremiumRide {
  premium_base : Ride;
  luxuryMultiplier : double
}.

(** Constructors: the member initialiser list, then the body. *)
Definition Ride_new (id : Z) (pickup dropoff : string) (dist : double) : Ride :=
  mk_Ride id pickup dropoff dist d2_0.

Definition StandardRide_new (id : Z) (pickup dropoff : string) (dist : double)
  : StandardRide :=
  let base := Ride_new id pickup dropoff dist in
  mk_StandardRide (set_baseFareRate base d2_0).

Definition PremiumRide_new (id : Z) (pickup dropoff : string) (dist : double)
  : PremiumRide :=
  let base := Ride_new id pickup dropoff dist in
  let this := mk_PremiumRide base d1_8 in
  mk_PremiumRide (set_baseFareRate (premium_base this) d3_5) (luxuryMultiplier this).

(** An object seen through a [Ride] reference: its most derived class
    decides which override a virtual call reaches. *)
Inductive RideObject : Type :=
| IsRide (r : Ride)
| IsStandardRide (s : StandardRide)
| IsPremiumRide (p : PremiumRide).

(** The [Ride] subobject (the implicit derived-to-base conversion). *)
Definition as_Ride (o : RideObject) : Ride :=
  match o with
  | IsRide r => r
  | IsStandardRide s => standard_base s
  | IsPremiumRide p => premium_base p
  end.

(** Getters of [Ride]. *)
Definition getRideID (r : Ride) : Z := rideID r.
Definition getPickupLocation (r : Ride) : string := pickupLocation r.
Definition getDropoffLocation (r : Ride) : string := dropoffLocation r.
Definition getDistance (r : Ride) : double := distance r.

(** The three bodies of [fare]. *)
Definition Ride_fare (this : Ride) : double :=
  mul (distance this) (baseFareRate this).

Definition StandardRide_fare (this : StandardRide) : double :=
  mul (getDistance (standard_base this)) (baseFareRate (standard_base this)).

Definition PremiumRide_fare (this : PremiumRide) : double :=
  mul (mul (getDistance (premium_base this)) (baseFareRate (premium_base this)))
      (luxuryMultiplier this).

(** [ride->fare()]: virtual dispatch. *)
Definition fare (o : RideObject) : double :=
  match o with
  | IsRide r => Ride_fare r
  | IsStandardRide s => StandardRide_fare s
  | IsPremiumRide p => PremiumRide_fare p
  end.

(** The three bodies of [getRideType] and its dispatch. *)
Definition Ride_getRideType (this : Ride) : string := "Standard".
Definition StandardRide_getRideType (this : StandardRide) : string := "Standard".
Definition PremiumRide_getRideType (this : PremiumRide) : string := "Premium".

Definition getRideType (o : RideObject) : string :=
  match o with
  | IsRide r => Ride_getRideType r
  | IsStandardRide s => StandardRide_getRideType s
  | IsPremiumRide p => PremiumRide_getRideType p
  end.

(** [Ride::rideDetails]: the body of the base class, run on an object of any
    of the three classes; the call of [fare] inside is virtual. *)
Definition Ride_rideDetails (this : RideObject) (os : ostream) : ostream :=
  let os := os << "Ride ID: " << rideID (as_Ride this) << endl in
  let os := os << "Pickup: " << pickupLocation (as_Ride this) << endl in
  let os := os << "Dropoff: " << dropoffLocation (as_Ride this) << endl in
  let os := os << "Distance: " << distance (as_Ride this) << " miles" << endl in
  os << "Fare: $" << fixed << setprecision 2 << fare this << endl.

(** [PremiumRide::rideDetails]: banner, the base body, the multiplier. *)
Definition PremiumRide_rideDetails (this : PremiumRide) (os : ostream) : ostream :=
  let os := os << "=== PREMIUM RIDE ===" << endl in
  let os := Ride_rideDetails (IsPremiumRide this) os in
  os << "Luxury Multiplier: " << luxuryMultiplier this << "x" << endl.

(** [ride->rideDetails()]: virtual dispatch; [StandardRide] inherits the
    base body. *)
Definition rideDetails (o : RideObject) (os : ostream) : ostream :=
  match o with
  | IsRide _ => Ride_rideDetails o os
  | IsStandardRide _ => Ride_rideDetails o os
  | IsPremiumRide p => PremiumRide_rideDetails p os
  end.

(** ** Undefined behaviour

    Dereferencing a null [shared_ptr] and indexing a vector out of range are
    undefined; the routines that do either run in an error monad over the
    stream, and [None] is the undefined outcome. *)

Definition shared_ptr (A : Type) : Type := option A.
Definition make_shared {A : Type} (a : A) : shared_ptr A := Some a.
Definition nullptr {A : Type} : shared_ptr A := None.

Definition io (A : Type) : Type := ostream -> option (A * ostream).

Definition ret {A : Type} (a : A) : io A := fun os => Some (a, os).

Definition bind {A B : Type} (c : io A) (k : A -> io B) : io B :=
  fun os =>
    match c os with
    | Some (a, os') => k a os'
    | None => None
    end.

Notation "x <- c ;; k" := (bind c (fun x => k))
  (at level 61, c at next level, right associativity).
Notation "c ;; k" := (bind c (fun _ => k))
  (at level 61, right associativity).

(** A statement that only writes to the stream. *)
Definition print (f : ostream -> ostream) : io unit :=
  fun os => Some (tt, f os).

(** [p->...] *)
Definition deref {A : Type} (p : shared_ptr A) : io A :=
  fun os =>
    match p with
    | Some a => Some (a, os)
    | None => None
    end.

(** [v[i]] *)
Definition at_index {A : Type} (v : list A) (i : nat) : io A :=
  fun os =>
    match nth_error v i with
    | Some a => Some (a, os)
    | None => None
    end.

(** [for (const auto& x : v) body], threading the locals [s]. *)
Fixpoint for_each {A S : Type} (body : S -> A -> io S) (v : list A) (s : S)
  : io S :=
  match v with
  | [] => ret s
  | x :: v' => s' <- body s x ;; for_each body v' s'
  end.

(** [for (size_t i = 0; i < n; ++i) body] *)
Definition for_index {S : Type} (body : S -> nat -> io S) (n : nat) (s : S)
  : io S :=
  for_each body (seq 0 n) s.

(** ** Driver *)

Record Driver : Type := mk_Driver {
  driverID : Z;
  driver_name : string;
  rating : double;
  assignedRides : list (shared_ptr RideObject)
}.

Definition Driver_new (id : Z) (driverName : string) (driverRating : double)
  : Driver :=
  mk_Driver id driverName driverRating [].

Definition addRide (this : Driver) (ride : shared_ptr RideObject) : Driver :=
  mk_Driver (driverID this) (driver_name this) (rating this)
            (assignedRides this ++ [ride]).

Definition getDriverInfo (this : Driver) : io unit :=
  print (fun os =>
    let os := os << (nl ++ "=== DRIVER INFORMATION ===") << endl in
    let os := os << "Driver ID: " << driverID this << endl in
    let os := os << "Name: " << driver_name this << endl in
    let os := os << "Rating: " << rating this << "/5.0" << endl in
    os << "Total Rides Completed: "
       << N.of_nat (List.length (assignedRides this)) << endl) ;;
  totalEarnings <-
    for_each (fun totalEarnings ride =>
                o <- deref ride ;;
                ret (add totalEarnings (fare o)))
             (assignedRides this) zero ;;
  print (fun os =>
    os << "Total Earnings: $" << fixed << setprecision 2
       << totalEarnings << endl).

Definition Driver_getRideCount (this : Driver) : N :=
  N.of_nat (List.length (assignedRides this)).

Definition getDriverID (this : Driver) : Z := driverID this.
Definition Driver_getName (this : Driver) : string := driver_name this.
Definition getRating (this : Driver) : double := rating this.

(** ** Rider *)

Record Rider : Type := mk_Rider {
  riderID : Z;
  rider_name : string;
  requestedRides : list (shared_ptr RideObject)
}.

Definition Rider_new (id : Z) (riderName : string) : Rider :=
  mk_Rider id riderName [].

Definition requestRide (this : Rider) (ride : shared_ptr RideObject) : io Rider :=
  let this := mk_Rider (riderID this) (rider_name this)
                       (requestedRides this ++ [ride]) in
  print (fun os =>
    os << "Ride requested by " << rider_name this
       << " (ID: " << riderID this << ")" << endl) ;;
  ret this.

Definition viewRides (this : Rider) : io unit :=
  print (fun os =>
    let os := os << (nl ++ "=== RIDER RIDE HISTORY ===") << endl in
    let os := os << "Rider: " << rider_name this
                 << " (ID: " << riderID this << ")" << endl in
    os << "Total Rides: " << N.of_nat (List.length (requestedRides this)) << endl) ;;
  totalSpent <-
    for_index (fun totalSpent i =>
                 print (fun os =>
                   os << (nl ++ "--- Ride ") << N.of_nat (i + 1) << " ---" << endl) ;;
                 p <- at_index (requestedRides this) i ;;
                 o <- deref p ;;
                 print (rideDetails o) ;;
                 p <- at_index (requestedRides this) i ;;
                 o <- deref p ;;
                 ret (add totalSpent (fare o)))
              (List.length (requestedRides this)) zero ;;
  print (fun os =>
    os << (nl ++ "Total Amount Spent: $") << fixed << setprecision 2
       << totalSpent << endl).

Definition Rider_getRideCount (this : Rider) : N :=
  N.of_nat (List.length (requestedRides this)).

Definition getRiderID (this : Rider) : Z := riderID this.
Definition Rider_getName (this : Rider) : string := rider_name this.

(** ** The demonstration routine and [main] *)

Definition demonstratePolymorphism (rides : list (shared_ptr RideObject))
  : io unit :=
  print (fun os =>
    let os := os << (nl ++ "=== POLYMORPHISM DEMONSTRATION ===") << endl in
    os << "Processing different ride types polymorphically:" << endl) ;;
  totalFares <-
    for_each (fun totalFares ride =>
                o <- deref ride ;;
                print (fun os =>
                  os << (nl ++ "--- ") << getRideType o << " Ride ---" << endl) ;;
                o <- deref ride ;;
                print (rideDetails o) ;;
                o <- deref ride ;;
                ret (add totalFares (fare o)))
             rides zero ;;
  print (fun os =>
    os << (nl ++ "Total Fares for All Rides: $") << fixed << setprecision 2
       << totalFares << endl).

Definition main : io Z :=
  print (fun os =>
    let os := os << "=== RIDE SHARING SYSTEM - C++ IMPLEMENTATION ===" << endl in
    os << "Demonstrating OOP Principles: Encapsulation, Inheritance, and Polymorphism"
       << endl) ;;
  let standardRide1 :=
    make_shared (IsStandardRide (StandardRide_new 1 "Downtown" "Airport" (literal 155 1))) in
  let premiumRide1 :=
    make_shared (IsPremiumRide (PremiumRide_new 2 "Hotel" "Convention Center" (literal 82 1))) in
  let standardRide2 :=
    make_shared (IsStandardRide (StandardRide_new 3 "Mall" "University" (literal 120 1))) in
  let premiumRide2 :=
    make_shared (IsPremiumRide (PremiumRide_new 4 "Airport" "Luxury Resort" (literal 258 1))) in
  let driver1 := Driver_new 101 "John Smith" (literal 48 1) in
  let driver2 := Driver_new 102 "Sarah Johnson" (literal 49 1) in
  let rider1 := Rider_new 201 "Alice Brown" in
  let rider2 := Rider_new 202 "Bob Wilson" in
  let driver1 := addRide driver1 standardRide1 in
  let driver1 := addRide driver1 premiumRide1 in
  let driver2 := addRide driver2 standardRide2 in
  let driver2 := addRide driver2 premiumRide2 in
  rider1 <- requestRide rider1 standardRide1 ;;
  rider1 <- requestRide rider1 premiumRide2 ;;
  rider2 <- requestRide rider2 premiumRide1 ;;
  rider2 <- requestRide rider2 standardRide2 ;;
  getDriverInfo driver1 ;;
  getDriverInfo driver2 ;;
  viewRides rider1 ;;
  viewRides rider2 ;;
  let allRides := [standardRide1; premiumRide1; standardRide2; premiumRide2] in
  demonstratePolymorphism allRides ;;
  ret 0%Z.

(** ** TypeSystemsScopesandClosures.cpp

    [makeCounter] returns the closure [[=]() mutable { return ++count; }]:
    an object with its own copy of [count], changed by each call.  [count]
    is an [int]; incrementing it at [INT_MAX] is undefined. *)

Module Closures.

Definition INT_MAX : Z := 2147483647.

Record counter : Type := mk_counter { count : Z }.

Definition makeCounter : counter := mk_counter 0.

(** [counter()]: the value returned and the closure after the call. *)
Definition call (c : counter) : option (Z * counter) :=
  if (count c <? INT_MAX)%Z
  then Some ((count c + 1)%Z, mk_counter (count c + 1))
  else None.

(** [n] calls in a row: the values returned, in order, and the closure
    left. *)
Fixpoint calls (n : nat) (c : counter) : option (list Z * counter) :=
  match n with
  | O => Some ([], c)
  | S n' =>
      match call c with
      | Some (v, c') =>
          match calls n' c' with
          | Some (vs, c'') => Some (v :: vs, c'')
          | None => None
          end
      | None => None
      end
  end.

Definition call_in_io (c : counter) : io (Z * counter) :=
  fun os =>
    match call c with
    | Some r => Some (r, os)
    | None => None
    end.

Definition main : io Z :=
  let counter1 := makeCounter in
  r <- call_in_io counter1 ;;
  print (fun os => os << fst r << endl) ;;
  let counter1 := snd r in
  r <- call_in_io counter1 ;;
  print (fun os => os << fst r << endl) ;;
  ret 0%Z.

End Closures.

(** ** Reference descriptions used in the statements *)

(** A finite double as a multiple of 2^-1074, the smallest positive double:
    every binary64 number is an integer number of these. *)
Definition scaled_value (x : double) : option Z :=
  match x with
  | S754_zero _ => Some 0%Z
  | S754_finite s m e => Some (cond_Zopp s (Zpos m * 2 ^ (e + 1074)))%Z
  | _ => None
  end.

(** What [getDriverInfo] writes, given the text of the rating. *)
Definition driver_report (id : Z) (name rating_text : string)
                         (rides : nat) (total : double) : string :=
  nl ++ "=== DRIVER INFORMATION ===" ++ nl ++
  "Driver ID: " ++ show_Z id ++ nl ++
  "Name: " ++ name ++ nl ++
  "Rating: " ++ rating_text ++ "/5.0" ++ nl ++
  "Total Rides Completed: " ++ show_N (N.of_nat rides) ++ nl ++
  "Total Earnings: $" ++ show_fixed 2 total ++ nl.

(** The confirmation line of [requestRide]. *)
Definition request_line (name : string) (id : Z) : string :=
  "Ride requested by " ++ name ++ " (ID: " ++ show_Z id ++ ")" ++ nl.

Fixpoint repeat_text (n : nat) (s : string) : string :=
  match n with
  | O => ""
  | S n' => s ++ repeat_text n' s
  end.

(** A sequence of [addRide] calls, and of [requestRide] calls, each with a
    pointer to a ride. *)
Definition addRides (d : Driver) (rides : list RideObject) : Driver :=
  fold_left addRide (map make_shared rides) d.

Definition requestRides (r : Rider) (rides : list RideObject) : io Rider :=
  for_each requestRide (map make_shared rides) r.

(** The sum of [fare()] over a sequence of rides: double additions, from
    [0.0], in the order of the sequence. *)
Definition sum_fares (rides : list RideObject) : double :=
  fold_left add (map fare rides) zero.

(** The detail block of a ride: id, pickup, dropoff and distance, the last
    one as the stream is set when the block starts, then the fare with two
    decimals. *)
Definition detail_head (r : Ride) (is_fixed : bool) (prec : nat) : string :=
  "Ride ID: " ++ show_Z (rideID r) ++ nl ++
  "Pickup: " ++ pickupLocation r ++ nl ++
  "Dropoff: " ++ dropoffLocation r ++ nl ++
  "Distance: " ++ show_double is_fixed prec (distance r) ++ " miles" ++ nl.

Definition fare_line (x : double) : string :=
  "Fare: $" ++ show_fixed 2 x ++ nl.

Definition detail_block (o : RideObject) (is_fixed : bool) (prec : nat) : string :=
  detail_head (as_Ride o) is_fixed prec ++ fare_line (fare o).

Definition premium_banner : string := "=== PREMIUM RIDE ===" ++ nl.

Definition luxury_line (x : double) : string :=
  "Luxury Multiplier: " ++ show_fixed 2 x ++ "x" ++ nl.

(** What [ride->rideDetails()] writes: the block alone, or for a premium
    ride the banner, the block and the multiplier. *)
Definition details_text (o : RideObject) (is_fixed : bool) (prec : nat) : string :=
  match o with
  | IsPremiumRide p =>
      premium_banner ++ detail_block o is_fixed prec
                     ++ luxury_line (luxuryMultiplier p)
  | _ => detail_block o is_fixed prec
  end.

(** What the loop of [viewRides] writes for the rides from number [i + 1]
    on; after the first block the stream is in fixed mode, precision 2. *)
Fixpoint history_text (i : nat) (rides : list RideObject)
                      (is_fixed : bool) (prec : nat) : string :=
  match rides with
  | [] => ""
  | o :: rest =>
      (nl ++ "--- Ride ") ++ show_N (N.of_nat (i + 1)) ++ " ---" ++ nl ++
      details_text o is_fixed prec ++ history_text (S i) rest true 2
  end.

(** What the loop of [demonstratePolymorphism] writes. *)
Fixpoint demonstration_text (rides : list RideObject)
                            (is_fixed : bool) (prec : nat) : string :=
  match rides with
  | [] => ""
  | o :: rest =>
      (nl ++ "--- ") ++ getRideType o ++ " Ride ---" ++ nl ++
      details_text o is_fixed prec ++ demonstration_text rest true 2
  end.

(** The stream flags after a loop that prints the details of each ride. *)
Definition flags_after (rides : list RideObject) (os : ostream) : bool * nat :=
  match rides with
  | [] => (fixed_flag os, precision os)
  | _ :: _ => (true, 2%nat)
  end.

(** A call of a member function through a [shared_ptr<Ride>]. *)
Definition call_through {A : Type} (p : shared_ptr RideObject)
                        (method : RideObject -> A) : io A :=
  this <- deref p ;; ret (method this).

Definition non_null {A : Type} (p : shared_ptr A) : Prop := p <> nullptr.

(** * Properties *)

(** ** Facts of binary64 arithmetic *)

Section Binary64.

Lemma mul_comm (x y : double) : mul x y = mul y x.
Proof.
  unfold mul.
  destruct x as [sx | sx | | sx mx ex], y as [sy | sy | | sy my ey];
    simpl; try reflexivity; try (now rewrite xorb_comm).
  now rewrite xorb_comm, Pos.mul_comm, Z.add_comm.
Qed.

Lemma add_comm (x y : double) : add x y = add y x.
Proof.
  unfold add.
  destruct x as [sx | sx | | sx mx ex], y as [sy | sy | | sy my ey];
    simpl; try reflexivity;
    try (destruct sx, sy; reflexivity).
  now rewrite (Z.min_comm ex ey), Z.add_comm.
Qed.

(** [0.0 + x] is [x], except that it turns [-0.0] into [+0.0]. *)
Lemma add_zero_l (x : double) :
  add zero x = match x with S754_zero _ => zero | _ => x end.
Proof. destruct x as [[] | | | ]; reflexivity. Qed.

Lemma shr_1_nonneg (mrs : shr_record) :
  (0 <= shr_m mrs)%Z -> (0 <= shr_m (shr_1 mrs))%Z.
Proof.
  destruct mrs as [m r s]; simpl.
  destruct m as [ | [q | q | ] | q ]; simpl; lia.
Qed.

Lemma iter_pos_invariant {A : Type} (P : A -> Prop) (f : A -> A) :
  (forall x, P x -> P (f x)) ->
  forall n x, P x -> P (iter_pos f n x).
Proof. intros Hf n; induction n; simpl; auto. Qed.

Lemma shr_fexp_nonneg (m e : Z) (l : location) :
  (0 <= m)%Z -> (0 <= shr_m (fst (shr_fexp prec emax m e l)))%Z.
Proof.
  intros Hm. unfold shr_fexp, shr.
  assert (H0 : (0 <= shr_m (shr_record_of_loc m l))%Z)
    by (destruct l as [ | [ | | ] ]; exact Hm).
  destruct (fexp prec emax (Zdigits2 m + e) - e)%Z; simpl; trivial.
  apply (iter_pos_invariant (fun mrs => (0 <= shr_m mrs)%Z)); trivial.
  exact shr_1_nonneg.
Qed.

Lemma round_nearest_even_nonneg (m : Z) (l : location) :
  (0 <= m)%Z -> (0 <= round_nearest_even m l)%Z.
Proof.
  intros Hm. destruct l as [ | [ | | ] ]; simpl; try lia.
  destruct (Z.even m); lia.
Qed.

(** Rounding a non-negative mantissa gives a zero, a finite number or an
    infinity. *)
Lemma binary_round_aux_not_nan (s : bool) (m e : Z) (l : location) :
  (0 <= m)%Z -> is_nan (binary_round_aux prec emax s m e l) = false.
Proof.
  intros Hm. unfold binary_round_aux.
  pose proof (shr_fexp_nonneg m e l Hm) as H1.
  destruct (shr_fexp prec emax m e l) as [mrs' e']; simpl in H1.
  pose proof (shr_fexp_nonneg _ e' loc_Exact
                (round_nearest_even_nonneg _ (loc_of_shr_record mrs') H1)) as H2.
  destruct (shr_fexp prec emax _ e' loc_Exact) as [mrs'' e'']; simpl in H2.
  destruct (shr_m mrs'') as [ | q | q ]; try reflexivity.
  - destruct (e'' <=? emax - prec)%Z; reflexivity.
  - lia.
Qed.

(** A product with a finite, non-zero factor is a NaN only if the other
    factor is. *)
Lemma mul_finite_not_nan (x : double) (s : bool) (m : positive) (e : Z) :
  is_nan x = false -> is_nan (mul x (S754_finite s m e)) = false.
Proof.
  destruct x as [sx | sx | | sx mx ex]; simpl; intros H; try reflexivity;
    try discriminate.
  apply binary_round_aux_not_nan. lia.
Qed.

Lemma eqb_refl (x : double) : is_nan x = false -> eqb x x = true.
Proof.
  unfold eqb, SFeqb.
  destruct x as [sx | sx | | sx mx ex]; simpl; intros H;
    try reflexivity; try discriminate.
  - destruct sx; reflexivity.
  - destruct sx; rewrite Z.compare_refl, Pos.compare_cont_refl; reflexivity.
Qed.

Lemma leb_zero_not_nan (x : double) : leb zero x = true -> is_nan x = false.
Proof. destruct x; simpl; intros H; try reflexivity; discriminate. Qed.

End Binary64.

(** ** Fares *)

Section Fares.

Variables (id : Z) (pickup dropoff : string).

(** C1. A StandardRide built with a distance [d >= 0] has
    [fare() == 2.0 * d]: the two doubles are the same value, and they
    compare equal with [==] (the product is not a NaN). *)
Theorem StandardRide_fare_is_twice_distance (d : double) :
  leb zero d = true ->
  let r := IsStandardRide (StandardRide_new id pickup dropoff d) in
  fare r = mul d2_0 d /\ eqb (fare r) (mul d2_0 d) = true.
Proof.
  intros Hd r.
  assert (E : fare r = mul d2_0 d) by (simpl; apply mul_comm).
  split; [exact E | ].
  rewrite <- E. apply eqb_refl. simpl.
  apply mul_finite_not_nan, leb_zero_not_nan, Hd.
Qed.

(** C2, as the code has it. A PremiumRide built with a distance [d >= 0]
    has [fare() == 3.5 * d * 1.8], the double expression evaluated from
    the left, each product rounded.  At [d = 1.0] that is the double
    [6.3]. *)
Theorem PremiumRide_fare_is_rate_times_multiplier (d : double) :
  leb zero d = true ->
  let r := IsPremiumRide (PremiumRide_new id pickup dropoff d) in
  fare r = mul (mul d3_5 d) d1_8 /\
  eqb (fare r) (mul (mul d3_5 d) d1_8) = true /\
  mul (mul d3_5 (of_Z 1)) d1_8 = d6_3.
Proof.
  intros Hd r.
  assert (E : fare r = mul (mul d3_5 d) d1_8)
    by (simpl; unfold PremiumRide_fare; simpl; now rewrite (mul_comm d d3_5)).
  split; [exact E | split; [ | reflexivity]].
  rewrite <- E. apply eqb_refl. simpl. unfold PremiumRide_fare; simpl.
  apply mul_finite_not_nan, mul_finite_not_nan, leb_zero_not_nan, Hd.
Qed.

(** C3, as the code has it. The constructors store the distance they are
    given, whatever its sign, and fix a positive rate: 2.0 for [Ride] and
    [StandardRide], 3.5 for [PremiumRide]. *)
Theorem constructors_keep_distance_and_set_positive_rate (d : double) :
  let r := Ride_new id pickup dropoff d in
  let s := StandardRide_new id pickup dropoff d in
  let p := PremiumRide_new id pickup dropoff d in
  (getDistance r = d /\ baseFareRate r = d2_0) /\
  (getDistance (standard_base s) = d /\ baseFareRate (standard_base s) = d2_0) /\
  (getDistance (premium_base p) = d /\ baseFareRate (premium_base p) = d3_5) /\
  ltb zero d2_0 = true /\ ltb zero d3_5 = true.
Proof. repeat split. Qed.

(** C10. [Ride] is not abstract: [Ride_new] builds one, and through a
    [Ride] reference it behaves as the StandardRide built from the same
    arguments: [fare()] is [distance * 2.0], [getRideType()] is
    ["Standard"], and [rideDetails()] writes the same text. *)
Theorem base_Ride_behaves_as_StandardRide (d : double) (os : ostream) :
  let r := IsRide (Ride_new id pickup dropoff d) in
  let s := IsStandardRide (StandardRide_new id pickup dropoff d) in
  fare r = mul d d2_0 /\ getRideType r = "Standard" /\
  fare r = fare s /\ getRideType r = getRideType s /\
  rideDetails r os = rideDetails s os.
Proof. repeat split. Qed.

End Fares.

(** Witness of C1: the first ride of [main], 15.5 miles. *)
Lemma StandardRide_fare_is_twice_distance_witness :
  leb zero (literal 155 1) = true /\
  fare (IsStandardRide (StandardRide_new 1 "Downtown" "Airport" (literal 155 1)))
  = mul d2_0 (literal 155 1).
Proof.
  split; [reflexivity | ].
  apply (StandardRide_fare_is_twice_distance 1 "Downtown" "Airport" (literal 155 1)).
  reflexivity.
Defined.

(** Witness of C2: the second ride of [main], 8.2 miles. *)
Lemma PremiumRide_fare_is_rate_times_multiplier_witness :
  leb zero (literal 82 1) = true /\
  fare (IsPremiumRide (PremiumRide_new 2 "Hotel" "Convention Center" (literal 82 1)))
  = mul (mul d3_5 (literal 82 1)) d1_8.
Proof.
  split; [reflexivity | ].
  apply (PremiumRide_fare_is_rate_times_multiplier
           2 "Hotel" "Convention Center" (literal 82 1)).
  reflexivity.
Defined.

(** C2 as stated fails: at [d = 3.0] the fare is 18.900000000000002 and
    [6.3 * d] is 18.9, two different doubles that do not compare equal. *)
Lemma PremiumRide_fare_differs_from_6_3_times_distance :
  let d := literal 30 1 in
  let r := IsPremiumRide (PremiumRide_new 1 "A" "B" d) in
  leb zero d = true /\
  fare r = S754_finite false 5319877059831399 (-48) /\
  mul d6_3 d = S754_finite false 5319877059831398 (-48) /\
  fare r <> mul d6_3 d /\
  eqb (fare r) (mul d6_3 d) = false.
Proof. vm_compute. repeat split. discriminate. Qed.

(** C3 as stated fails: a ride built with distance -1.0 keeps it. *)
Lemma negative_distance_is_kept :
  let r := Ride_new 1 "A" "B" (of_Z (-1)) in
  getDistance r = of_Z (-1) /\ leb zero (getDistance r) = false.
Proof. vm_compute. split; reflexivity. Qed.

(** ** Text written by the ride hierarchy *)

Lemma append_assoc (a b c : string) : (a ++ b) ++ c = a ++ b ++ c.
Proof. induction a as [ | ch a IH]; simpl; [ | rewrite IH]; reflexivity. Qed.

Lemma append_nil_r (a : string) : a ++ "" = a.
Proof. induction a as [ | ch a IH]; simpl; [ | rewrite IH]; reflexivity. Qed.

(** Insertions into a stream whose flags and text are known. *)
Section Insertions.

Variables (is_fixed : bool) (prec : nat) (t : string).

Lemma insert_string_text (s : string) :
  mk_ostream is_fixed prec t << s = mk_ostream is_fixed prec (t ++ s).
Proof. reflexivity. Qed.

Lemma insert_int_text (n : Z) :
  mk_ostream is_fixed prec t << n = mk_ostream is_fixed prec (t ++ show_Z n).
Proof. reflexivity. Qed.

Lemma insert_size_t_text (n : N) :
  mk_ostream is_fixed prec t << n = mk_ostream is_fixed prec (t ++ show_N n).
Proof. reflexivity. Qed.

Lemma insert_double_text (x : double) :
  mk_ostream is_fixed prec t << x =
  mk_ostream is_fixed prec (t ++ show_double is_fixed prec x).
Proof. reflexivity. Qed.

Lemma insert_endl_text :
  mk_ostream is_fixed prec t << endl = mk_ostream is_fixed prec (t ++ nl).
Proof. reflexivity. Qed.

Lemma insert_fixed_text :
  mk_ostream is_fixed prec t << fixed = mk_ostream true prec t.
Proof. reflexivity. Qed.

Lemma insert_setprecision_text (n : nat) :
  mk_ostream is_fixed prec t << setprecision n = mk_ostream is_fixed n t.
Proof. reflexivity. Qed.

End Insertions.

Create Rewrite HintDb stream.
#[local] Hint Rewrite insert_string_text insert_int_text insert_size_t_text
  insert_double_text insert_endl_text insert_fixed_text
  insert_setprecision_text : stream.

(** Normalise a chain of insertions into a stream given by its fields: the
    innermost insertion is rewritten first, so the stream is never copied. *)
Ltac stream_text :=
  cbv zeta; autorewrite with stream;
  cbn [fixed_flag precision text];
  rewrite ?append_assoc.

Lemma Ride_rideDetails_text (o : RideObject) (os : ostream) :
  Ride_rideDetails o os =
  mk_ostream true 2
    (text os ++ detail_block o (fixed_flag os) (precision os)).
Proof.
  destruct os as [fx pr t].
  unfold Ride_rideDetails, detail_block, detail_head, fare_line.
  stream_text. reflexivity.
Qed.

Lemma PremiumRide_rideDetails_text (p : PremiumRide) (os : ostream) :
  PremiumRide_rideDetails p os =
  mk_ostream true 2
    (text os ++ premium_banner
             ++ detail_block (IsPremiumRide p) (fixed_flag os) (precision os)
             ++ luxury_line (luxuryMultiplier p)).
Proof.
  unfold PremiumRide_rideDetails. cbv zeta.
  rewrite Ride_rideDetails_text.
  destruct os as [fx pr t].
  unfold luxury_line, premium_banner.
  stream_text. reflexivity.
Qed.

Lemma rideDetails_text (o : RideObject) (os : ostream) :
  rideDetails o os =
  mk_ostream true 2
    (text os ++ details_text o (fixed_flag os) (precision os)).
Proof.
  destruct o as [r | s | p]; cbn [rideDetails details_text].
  - apply Ride_rideDetails_text.
  - apply Ride_rideDetails_text.
  - apply PremiumRide_rideDetails_text.
Qed.

Section RideText.

Variable os : ostream.

(** C6. A call through a [Ride] pointer to a freshly built StandardRide or
    PremiumRide runs the body of that class: [fare()] and [getRideType()]
    return what the class's own function returns, and [rideDetails()]
    writes what it writes (for StandardRide the inherited body, run on the
    object itself); the labels are ["Standard"] and ["Premium"].  On the
    sequence of the two, [demonstratePolymorphism] does what the direct
    calls on the two objects do. *)
Theorem dispatch_reaches_variant (id : Z) (pickup dropoff : string) (d : double) :
  let s := StandardRide_new id pickup dropoff d in
  let p := PremiumRide_new id pickup dropoff d in
  let ps := make_shared (IsStandardRide s) in
  let pp := make_shared (IsPremiumRide p) in
  (call_through ps fare os = Some (StandardRide_fare s, os) /\
   call_through ps getRideType os = Some (StandardRide_getRideType s, os) /\
   StandardRide_getRideType s = "Standard" /\
   call_through ps (fun this => rideDetails this os) os
     = Some (Ride_rideDetails (IsStandardRide s) os, os)) /\
  (call_through pp fare os = Some (PremiumRide_fare p, os) /\
   call_through pp getRideType os = Some (PremiumRide_getRideType p, os) /\
   PremiumRide_getRideType p = "Premium" /\
   call_through pp (fun this => rideDetails this os) os
     = Some (PremiumRide_rideDetails p os, os)) /\
  demonstratePolymorphism [ps; pp] os =
    (print (fun os =>
       let os := os << (nl ++ "=== POLYMORPHISM DEMONSTRATION ===") << endl in
       os << "Processing different ride types polymorphically:" << endl) ;;
     print (fun os =>
       os << (nl ++ "--- ") << StandardRide_getRideType s << " Ride ---" << endl) ;;
     print (Ride_rideDetails (IsStandardRide s)) ;;
     print (fun os =>
       os << (nl ++ "--- ") << PremiumRide_getRideType p << " Ride ---" << endl) ;;
     print (PremiumRide_rideDetails p) ;;
     print (fun os =>
       os << (nl ++ "Total Fares for All Rides: $") << fixed << setprecision 2
          << add (add zero (StandardRide_fare s)) (PremiumRide_fare p)
          << endl)) os.
Proof.
  intros s p ps pp.
  split; [ | split].
  - unfold call_through, bind, deref, ret, ps, make_shared.
    repeat split.
  - unfold call_through, bind, deref, ret, pp, make_shared.
    repeat split.
  - unfold demonstratePolymorphism, ps, pp, make_shared.
    cbn [for_each]. unfold bind, print, deref, ret. reflexivity.
Qed.

(** C7. What [rideDetails()] writes for a PremiumRide is the banner line,
    then the detail block exactly as the inherited [Ride::rideDetails]
    writes it for this object after the banner (id, pickup, dropoff,
    distance, the fare with two decimals), then the multiplier line. *)
Theorem PremiumRide_rideDetails_extends_base (p : PremiumRide) :
  let this := IsPremiumRide p in
  let base := detail_block this (fixed_flag os) (precision os) in
  text (rideDetails this os) =
    text os ++ premium_banner ++ base ++ luxury_line (luxuryMultiplier p) /\
  text (Ride_rideDetails this (os << "=== PREMIUM RIDE ===" << endl)) =
    text os ++ premium_banner ++ base /\
  base =
    "Ride ID: " ++ show_Z (getRideID (premium_base p)) ++ nl ++
    "Pickup: " ++ getPickupLocation (premium_base p) ++ nl ++
    "Dropoff: " ++ getDropoffLocation (premium_base p) ++ nl ++
    "Distance: " ++
      show_double (fixed_flag os) (precision os) (getDistance (premium_base p))
      ++ " miles" ++ nl ++
    "Fare: $" ++ show_fixed 2 (fare this) ++ nl.
Proof.
  intros this base. split; [ | split].
  - rewrite rideDetails_text. reflexivity.
  - rewrite Ride_rideDetails_text. unfold base, premium_banner.
    destruct os as [fx pr t]. stream_text. reflexivity.
  - unfold base, detail_block, detail_head, fare_line.
    cbn [as_Ride this]. unfold getRideID, getPickupLocation,
      getDropoffLocation, getDistance.
    rewrite ?append_assoc. reflexivity.
Qed.

(** C9. The fare line of a detail block shows the value of the object's
    own [fare()]: the block written by [Ride::rideDetails] ends with it
    for every class, and for a PremiumRide that value is the premium
    fare, multiplier included, in the inherited body and in the
    override. *)
Theorem fare_line_shows_dispatched_fare (o : RideObject) (p : PremiumRide) :
  let head (this : RideObject) :=
    detail_head (as_Ride this) (fixed_flag os) (precision os) in
  text (Ride_rideDetails o os) =
    text os ++ head o ++ "Fare: $" ++ show_fixed 2 (fare o) ++ nl /\
  text (Ride_rideDetails (IsPremiumRide p) os) =
    text os ++ head (IsPremiumRide p) ++
    "Fare: $" ++ show_fixed 2 (PremiumRide_fare p) ++ nl /\
  text (rideDetails (IsPremiumRide p) os) =
    text os ++ premium_banner ++ head (IsPremiumRide p) ++
    "Fare: $" ++ show_fixed 2 (PremiumRide_fare p) ++ nl ++
    luxury_line (luxuryMultiplier p) /\
  PremiumRide_fare p =
    mul (mul (distance (premium_base p)) (baseFareRate (premium_base p)))
        (luxuryMultiplier p).
Proof.
  intros head. split; [ | split; [ | split]].
  - rewrite Ride_rideDetails_text. reflexivity.
  - rewrite Ride_rideDetails_text. reflexivity.
  - rewrite rideDetails_text.
    unfold details_text, detail_block, fare_line, head.
    cbn [text fare]. rewrite ?append_assoc. reflexivity.
  - reflexivity.
Qed.

End RideText.

(** ** The loops *)

Section Loops.

Lemma non_null_pointers (v : list (shared_ptr RideObject)) :
  Forall non_null v -> exists rides, v = map make_shared rides.
Proof.
  induction 1 as [ | p v Hp _ [rides ->] ].
  - exists []. reflexivity.
  - destruct p as [o | ]; [ | now elim Hp].
    exists (o :: rides). reflexivity.
Qed.

Lemma make_shared_non_null (rides : list RideObject) :
  Forall non_null (map make_shared rides).
Proof. induction rides; constructor; [discriminate | assumption]. Qed.

(** One step of a sequence of statements. *)
Lemma bind_assoc {A B C : Type} (c : io A) (k1 : A -> io B) (k2 : B -> io C)
                 (os : ostream) :
  bind (bind c k1) k2 os = bind c (fun a => bind (k1 a) k2) os.
Proof. unfold bind. destruct (c os) as [[a os'] | ]; reflexivity. Qed.

Lemma bind_print {B : Type} (f : ostream -> ostream) (k : unit -> io B)
                 (os : ostream) :
  bind (print f) k os = k tt (f os).
Proof. reflexivity. Qed.

Lemma bind_ret {A B : Type} (a : A) (k : A -> io B) (os : ostream) :
  bind (ret a) k os = k a os.
Proof. reflexivity. Qed.

Lemma bind_deref {A B : Type} (a : A) (k : A -> io B) (os : ostream) :
  bind (deref (make_shared a)) k os = k a os.
Proof. reflexivity. Qed.

Lemma bind_at_index {A B : Type} (pre : list A) (x : A) (post : list A)
                    (k : A -> io B) (os : ostream) :
  bind (at_index (pre ++ x :: post) (List.length pre)) k os = k x os.
Proof.
  unfold bind, at_index.
  rewrite nth_error_app2, Nat.sub_diag by apply Nat.le_refl. reflexivity.
Qed.

Ltac run_statements :=
  repeat (first [ rewrite bind_assoc | rewrite bind_print
                | rewrite bind_at_index | rewrite bind_deref
                | rewrite bind_ret ]; cbv beta).

(** The accumulation loop of [getDriverInfo]. *)
Lemma earnings_loop (rides : list RideObject) (acc : double) (os : ostream) :
  for_each (fun totalEarnings ride =>
              o <- deref ride ;; ret (add totalEarnings (fare o)))
           (map make_shared rides) acc os
  = Some (fold_left add (map fare rides) acc, os).
Proof.
  revert acc. induction rides as [ | o rest IH]; intros acc; simpl.
  - reflexivity.
  - unfold bind at 1. simpl. apply IH.
Qed.

Lemma getDriverInfo_run (d : Driver) (rides : list RideObject) (os : ostream) :
  assignedRides d = map make_shared rides ->
  getDriverInfo d os =
  Some (tt, mk_ostream true 2
    (text os ++ nl ++ "=== DRIVER INFORMATION ===" ++ nl ++
     "Driver ID: " ++ show_Z (driverID d) ++ nl ++
     "Name: " ++ driver_name d ++ nl ++
     "Rating: " ++ show_double (fixed_flag os) (precision os) (rating d)
                ++ "/5.0" ++ nl ++
     "Total Rides Completed: "
       ++ show_N (N.of_nat (List.length rides)) ++ nl ++
     "Total Earnings: $" ++ show_fixed 2 (sum_fares rides) ++ nl)).
Proof.
  intros E. unfold getDriverInfo. rewrite E.
  unfold bind at 1. unfold print at 1.
  unfold bind at 1. rewrite earnings_loop.
  unfold print. rewrite length_map. unfold sum_fares.
  destruct os as [fx pr t]. stream_text. reflexivity.
Qed.

Lemma assignedRides_addRides (rides : list RideObject) (d : Driver) :
  assignedRides (addRides d rides) = (assignedRides d ++ map make_shared rides)%list.
Proof.
  unfold addRides. revert d.
  induction rides as [ | o rest IH]; intros d; simpl.
  - now rewrite app_nil_r.
  - rewrite IH. simpl. now rewrite <- app_assoc.
Qed.

Lemma addRides_fields (rides : list RideObject) (d : Driver) :
  driverID (addRides d rides) = driverID d /\
  driver_name (addRides d rides) = driver_name d /\
  rating (addRides d rides) = rating d.
Proof.
  unfold addRides. revert d.
  induction rides as [ | o rest IH]; intros d; simpl.
  - repeat split.
  - destruct (IH (addRide d (make_shared o))) as (H1 & H2 & H3).
    rewrite H1, H2, H3. repeat split.
Qed.

Lemma flags_after_details (rest : list RideObject) (t : string) :
  flags_after rest (mk_ostream true 2 t) = (true, 2%nat).
Proof. destruct rest; reflexivity. Qed.

(** The loop of [viewRides], entered at index [length pre] with the rides
    [rest] still to show. *)
Lemma history_loop (this : Rider) (rest : list RideObject) :
  forall (pre : list (shared_ptr RideObject)) (acc : double) (os : ostream),
  requestedRides this = (pre ++ map make_shared rest)%list ->
  for_each (fun totalSpent i =>
               print (fun os =>
                 os << (nl ++ "--- Ride ") << N.of_nat (i + 1) << " ---" << endl) ;;
               p <- at_index (requestedRides this) i ;;
               o <- deref p ;;
               print (rideDetails o) ;;
               p <- at_index (requestedRides this) i ;;
               o <- deref p ;;
               ret (add totalSpent (fare o)))
           (seq (List.length pre) (List.length rest)) acc os
  = Some (fold_left add (map fare rest) acc,
          mk_ostream (fst (flags_after rest os)) (snd (flags_after rest os))
            (text os ++
             history_text (List.length pre) rest (fixed_flag os) (precision os))).
Proof.
  induction rest as [ | o rest IH]; intros pre acc os E.
  - destruct os as [fx pr t]. simpl. now rewrite append_nil_r.
  - cbn [map] in E.
    cbn [List.length seq for_each map fold_left].
    rewrite E.
    run_statements.
    rewrite <- E.
    replace (S (List.length pre))
      with (List.length (pre ++ [make_shared o])%list)
      by (rewrite length_app; simpl; lia).
    rewrite IH by (rewrite E, <- app_assoc; reflexivity).
    rewrite rideDetails_text, flags_after_details.
    destruct os as [fx pr t]. stream_text.
    cbn [fst snd flags_after history_text].
    rewrite length_app. cbn [List.length].
    rewrite Nat.add_1_r, ?append_assoc. reflexivity.
Qed.

Lemma viewRides_run (this : Rider) (rides : list RideObject) (os : ostream) :
  requestedRides this = map make_shared rides ->
  viewRides this os =
  Some (tt, mk_ostream true 2
    (text os ++ nl ++ "=== RIDER RIDE HISTORY ===" ++ nl ++
     "Rider: " ++ rider_name this ++ " (ID: " ++ show_Z (riderID this)
               ++ ")" ++ nl ++
     "Total Rides: " ++ show_N (N.of_nat (List.length rides)) ++ nl ++
     history_text 0 rides (fixed_flag os) (precision os) ++
     nl ++ "Total Amount Spent: $" ++ show_fixed 2 (sum_fares rides) ++ nl)).
Proof.
  intros E. unfold viewRides, for_index.
  unfold bind at 1. unfold print at 1.
  unfold bind at 1.
  replace (List.length (requestedRides this)) with (List.length rides)
    by (rewrite E, length_map; reflexivity).
  rewrite (history_loop this rides [] zero) by exact E.
  unfold print. unfold sum_fares.
  destruct os as [fx pr t]. stream_text. reflexivity.
Qed.

(** The loop of [demonstratePolymorphism]. *)
Lemma demonstration_loop (rides : list RideObject) :
  forall (acc : double) (os : ostream),
  for_each (fun totalFares ride =>
              o <- deref ride ;;
              print (fun os =>
                os << (nl ++ "--- ") << getRideType o << " Ride ---" << endl) ;;
              o <- deref ride ;;
              print (rideDetails o) ;;
              o <- deref ride ;;
              ret (add totalFares (fare o)))
           (map make_shared rides) acc os
  = Some (fold_left add (map fare rides) acc,
          mk_ostream (fst (flags_after rides os)) (snd (flags_after rides os))
            (text os ++
             demonstration_text rides (fixed_flag os) (precision os))).
Proof.
  induction rides as [ | o rest IH]; intros acc os.
  - destruct os as [fx pr t]. simpl. now rewrite append_nil_r.
  - cbn [for_each map fold_left].
    run_statements.
    rewrite IH, rideDetails_text, flags_after_details.
    destruct os as [fx pr t]. stream_text.
    cbn [fst snd flags_after demonstration_text].
    rewrite ?append_assoc. reflexivity.
Qed.

Lemma demonstratePolymorphism_run (rides : list RideObject) (os : ostream) :
  demonstratePolymorphism (map make_shared rides) os =
  Some (tt, mk_ostream true 2
    (text os ++ nl ++ "=== POLYMORPHISM DEMONSTRATION ===" ++ nl ++
     "Processing different ride types polymorphically:" ++ nl ++
     demonstration_text rides (fixed_flag os) (precision os) ++
     nl ++ "Total Fares for All Rides: $"
        ++ show_fixed 2 (sum_fares rides) ++ nl)).
Proof.
  unfold demonstratePolymorphism.
  unfold bind at 1. unfold print at 1.
  unfold bind at 1. rewrite demonstration_loop.
  unfold print. unfold sum_fares.
  destruct os as [fx pr t]. stream_text. reflexivity.
Qed.

(** [requestRide] appends the pointer and leaves the stream flags alone. *)
Lemma requestRide_run (this : Rider) (ride : shared_ptr RideObject)
                      (os : ostream) :
  requestRide this ride os =
  Some (mk_Rider (riderID this) (rider_name this)
                 (requestedRides this ++ [ride]),
        mk_ostream (fixed_flag os) (precision os)
          (text os ++ "Ride requested by " ++ rider_name this ++
           " (ID: " ++ show_Z (riderID this) ++ ")" ++ nl)).
Proof.
  unfold requestRide, bind, print, ret. cbn [riderID rider_name].
  destruct os as [fx pr t]. stream_text. reflexivity.
Qed.

Lemma requestRides_run (rides : list RideObject) :
  forall (this : Rider) (os : ostream),
  exists os',
    requestRides this rides os =
    Some (mk_Rider (riderID this) (rider_name this)
                   (requestedRides this ++ map make_shared rides), os') /\
    fixed_flag os' = fixed_flag os /\ precision os' = precision os.
Proof.
  unfold requestRides.
  induction rides as [ | o rest IH]; intros this os.
  - exists os. destruct this. simpl. now rewrite app_nil_r.
  - cbn [map for_each]. unfold bind at 1. rewrite requestRide_run.
    destruct (IH (mk_Rider (riderID this) (rider_name this)
                           (requestedRides this ++ [make_shared o]))
                 (mk_ostream (fixed_flag os) (precision os)
                    (text os ++ "Ride requested by " ++ rider_name this ++
                     " (ID: " ++ show_Z (riderID this) ++ ")" ++ nl)))
      as (os' & E & Hf & Hp).
    exists os'. rewrite E. cbn [riderID rider_name requestedRides].
    rewrite <- app_assoc. simpl in Hf, Hp. auto.
Qed.

End Loops.


(** ** Driver and Rider reports *)

Lemma add_from_zero_swap (x y : double) :
  add (add zero x) y = add (add zero y) x.
Proof.
  rewrite !add_zero_l.
  destruct x as [sx | sx | | sx mx ex], y as [sy | sy | | sy my ey];
    try reflexivity; try (destruct sx; reflexivity);
    try (destruct sy; reflexivity);
    try (destruct sx, sy; reflexivity).
  apply add_comm.
Qed.

(** The report of a new driver after a sequence of [addRide] calls. *)
Lemma getDriverInfo_addRides (id : Z) (name : string) (driverRating : double)
                             (rides : list RideObject) (os : ostream) :
  getDriverInfo (addRides (Driver_new id name driverRating) rides) os =
  Some (tt, mk_ostream true 2
    (text os ++ nl ++ "=== DRIVER INFORMATION ===" ++ nl ++
     "Driver ID: " ++ show_Z id ++ nl ++
     "Name: " ++ name ++ nl ++
     "Rating: " ++ show_double (fixed_flag os) (precision os) driverRating
                ++ "/5.0" ++ nl ++
     "Total Rides Completed: "
       ++ show_N (N.of_nat (List.length rides)) ++ nl ++
     "Total Earnings: $" ++ show_fixed 2 (sum_fares rides) ++ nl)).
Proof.
  rewrite (getDriverInfo_run _ rides os)
    by (rewrite assignedRides_addRides; reflexivity).
  destruct (addRides_fields rides (Driver_new id name driverRating))
    as (-> & -> & ->).
  reflexivity.
Qed.

Section Reports.

Variables (id : Z) (name : string).

(** C4, as the code has it. After any sequence of [addRide] calls on a new
    Driver, [getDriverInfo] reports the number of rides and, with two
    decimals, the sum of their [fare()], added as doubles from 0.0 in the
    order of the calls; exchanging the first two calls leaves the report
    unchanged.  Both for a sum that is not a NaN. *)
Theorem Driver_reports_sum_in_call_order
    (driverRating : double) (rides : list RideObject)
    (a b : RideObject) (rest : list RideObject) (os : ostream) :
  is_nan (sum_fares rides) = false ->
  is_nan (sum_fares (a :: b :: rest)) = false ->
  let d := Driver_new id name driverRating in
  getDriverInfo (addRides d rides) os =
    Some (tt, mk_ostream true 2
      (text os ++ nl ++ "=== DRIVER INFORMATION ===" ++ nl ++
       "Driver ID: " ++ show_Z id ++ nl ++
       "Name: " ++ name ++ nl ++
       "Rating: " ++ show_double (fixed_flag os) (precision os) driverRating
                  ++ "/5.0" ++ nl ++
       "Total Rides Completed: "
         ++ show_N (N.of_nat (List.length rides)) ++ nl ++
       "Total Earnings: $" ++ show_fixed 2 (sum_fares rides) ++ nl)) /\
  getDriverInfo (addRides d (a :: b :: rest)) os =
    getDriverInfo (addRides d (b :: a :: rest)) os.
Proof.
  intros _ _ d. split; [apply getDriverInfo_addRides | ].
  unfold d. rewrite !getDriverInfo_addRides.
  unfold sum_fares. cbn [map fold_left List.length].
  now rewrite (add_from_zero_swap (fare a) (fare b)).
Qed.

(** C5. After [N] calls of [requestRide] on a new Rider, with any rides,
    repeated or not, the ride count is [N] and [viewRides] reports [N]
    rides, their detail blocks in request order and, with two decimals,
    the sum of their [fare()] added as doubles from 0.0 in that order,
    for a sum that is not a NaN; with no call it reports 0 rides and
    0.00. *)
Theorem Rider_reports_count_and_sum (rides : list RideObject) (os : ostream) :
  is_nan (sum_fares rides) = false ->
  (exists (rider : Rider) (os1 : ostream),
     requestRides (Rider_new id name) rides os = Some (rider, os1) /\
     Rider_getRideCount rider = N.of_nat (List.length rides) /\
     viewRides rider os1 =
       Some (tt, mk_ostream true 2
         (text os1 ++ nl ++ "=== RIDER RIDE HISTORY ===" ++ nl ++
          "Rider: " ++ name ++ " (ID: " ++ show_Z id ++ ")" ++ nl ++
          "Total Rides: " ++ show_N (N.of_nat (List.length rides)) ++ nl ++
          history_text 0 rides (fixed_flag os) (precision os) ++
          nl ++ "Total Amount Spent: $"
             ++ show_fixed 2 (sum_fares rides) ++ nl))) /\
  Rider_getRideCount (Rider_new id name) = 0%N /\
  viewRides (Rider_new id name) os =
    Some (tt, mk_ostream true 2
      (text os ++ nl ++ "=== RIDER RIDE HISTORY ===" ++ nl ++
       "Rider: " ++ name ++ " (ID: " ++ show_Z id ++ ")" ++ nl ++
       "Total Rides: 0" ++ nl ++
       nl ++ "Total Amount Spent: $0.00" ++ nl)).
Proof.
  intros _. split; [ | split].
  - destruct (requestRides_run rides (Rider_new id name) os)
      as (os1 & E & Hf & Hp).
    eexists; exists os1. split; [exact E | ]. split.
    + unfold Rider_getRideCount, Rider_new. cbn [requestedRides app].
      now rewrite length_map.
    + rewrite (viewRides_run _ rides os1) by reflexivity.
      cbn [riderID rider_name Rider_new]. now rewrite Hf, Hp.
  - reflexivity.
  - rewrite (viewRides_run _ [] os) by reflexivity. reflexivity.
Qed.

End Reports.

(** Witness of C4: the two rides of the first driver of [main]. *)
Lemma Driver_reports_sum_in_call_order_witness :
  let a := IsStandardRide (StandardRide_new 1 "Downtown" "Airport" (literal 155 1)) in
  let b := IsPremiumRide (PremiumRide_new 2 "Hotel" "Convention Center" (literal 82 1)) in
  let d := Driver_new 101 "John Smith" (literal 48 1) in
  is_nan (sum_fares [a; b]) = false /\
  getDriverInfo (addRides d [a; b]) cout = getDriverInfo (addRides d [b; a]) cout.
Proof.
  intros a b d. split; [reflexivity | ].
  apply (Driver_reports_sum_in_call_order
           101 "John Smith" (literal 48 1) [a; b] a b [] cout);
    reflexivity.
Defined.

(** Witness of C5: the two rides of the first rider of [main]. *)
Lemma Rider_reports_count_and_sum_witness :
  let rides :=
    [IsStandardRide (StandardRide_new 1 "Downtown" "Airport" (literal 155 1));
     IsPremiumRide (PremiumRide_new 4 "Airport" "Luxury Resort" (literal 258 1))] in
  is_nan (sum_fares rides) = false /\
  exists (rider : Rider) (os1 os2 : ostream),
    requestRides (Rider_new 201 "Alice Brown") rides cout = Some (rider, os1) /\
    Rider_getRideCount rider = 2%N /\
    viewRides rider os1 = Some (tt, os2).
Proof.
  intros rides.
  assert (H : is_nan (sum_fares rides) = false) by reflexivity.
  split; [exact H | ].
  destruct (Rider_reports_count_and_sum 201 "Alice Brown" rides cout H)
    as [(rider & os1 & E & Hc & Hv) _].
  exists rider, os1. eexists. repeat split; eassumption.
Defined.

(** C4 as stated fails: three standard rides of 2^52, 0.5 and 0.5 miles have
    the fares 2^53, 1 and 1.  Added in that order the total stays 2^53
    (each [+ 1] is a tie that rounds back to the even neighbour); with the
    long ride last it is 2^53 + 2.  The two reports differ. *)
Lemma Driver_total_depends_on_order :
  let long := IsStandardRide (StandardRide_new 1 "A" "B" (of_Z (2 ^ 52))) in
  let short1 := IsStandardRide (StandardRide_new 2 "A" "B" (literal 5 1)) in
  let short2 := IsStandardRide (StandardRide_new 3 "A" "B" (literal 5 1)) in
  let d := Driver_new 101 "John Smith" (literal 48 1) in
  let report (rides : list RideObject) :=
    option_map (fun r => text (snd r)) (getDriverInfo (addRides d rides) cout) in
  let head :=
    nl ++ "=== DRIVER INFORMATION ===" ++ nl ++ "Driver ID: 101" ++ nl ++
    "Name: John Smith" ++ nl ++ "Rating: 4.8/5.0" ++ nl ++
    "Total Rides Completed: 3" ++ nl in
  Permutation [long; short1; short2] [short1; short2; long] /\
  sum_fares [long; short1; short2] = of_Z (2 ^ 53) /\
  sum_fares [short1; short2; long] = of_Z (2 ^ 53 + 2) /\
  report [long; short1; short2] =
    Some (head ++ "Total Earnings: $9007199254740992.00" ++ nl) /\
  report [short1; short2; long] =
    Some (head ++ "Total Earnings: $9007199254740994.00" ++ nl) /\
  report [long; short1; short2] <> report [short1; short2; long].
Proof.
  intros long short1 short2 d report head. split.
  - apply perm_trans with [short1; long; short2].
    + apply perm_swap.
    + apply perm_skip, perm_swap.
  - vm_compute. repeat split. discriminate.
Qed.

(** The same effect below a mile: rides of 0.7285, 0.0355 and 0.5485 miles
    total 2.625 in this order, an exact tie printed as 2.62, and the next
    double above it with the last two exchanged, printed as 2.63. *)
Example Driver_total_rounding_below_a_mile :
  let a := IsStandardRide (StandardRide_new 1 "A" "B" (literal 7285 4)) in
  let b := IsStandardRide (StandardRide_new 2 "A" "B" (literal 355 4)) in
  let c := IsStandardRide (StandardRide_new 3 "A" "B" (literal 5485 4)) in
  show_fixed 2 (sum_fares [a; b; c]) = "2.62" /\
  show_fixed 2 (sum_fares [a; c; b]) = "2.63".
Proof. vm_compute. split; reflexivity. Qed.

(** The rides of [main]: a standard ride of 15.5 miles costs 31.00, a
    premium ride of 8.2 miles 51.66, and the driver of both earns 82.66. *)
Example fares_of_main :
  let standardRide1 :=
    IsStandardRide (StandardRide_new 1 "Downtown" "Airport" (literal 155 1)) in
  let premiumRide1 :=
    IsPremiumRide (PremiumRide_new 2 "Hotel" "Convention Center" (literal 82 1)) in
  show_fixed 2 (fare standardRide1) = "31.00" /\
  show_fixed 2 (fare premiumRide1) = "51.66" /\
  show_fixed 2 (sum_fares [standardRide1; premiumRide1]) = "82.66" /\
  text (rideDetails premiumRide1 cout) =
    "=== PREMIUM RIDE ===" ++ nl ++
    "Ride ID: 2" ++ nl ++
    "Pickup: Hotel" ++ nl ++
    "Dropoff: Convention Center" ++ nl ++
    "Distance: 8.2 miles" ++ nl ++
    "Fare: $51.66" ++ nl ++
    "Luxury Multiplier: 1.80x" ++ nl.
Proof. vm_compute. repeat split. Qed.

(** The distances used above are binary64 values. *)
Example distances_are_binary64 :
  forallb (valid_binary prec emax)
    [literal 155 1; literal 82 1; literal 30 1; literal 5 1; of_Z (2 ^ 52);
     of_Z (-1); literal 7285 4; literal 355 4; literal 5485 4;
     d2_0; d3_5; d1_8; d6_3] = true.
Proof. reflexivity. Qed.

(** ** Failure *)

(** C8, as the code has it. When every ride pointer held or passed is
    non-null, [getDriverInfo], [viewRides] and [demonstratePolymorphism] run
    to their end; [requestRide] always does; and [main] returns 0. *)
Theorem reports_complete_on_non_null_rides
    (d : Driver) (r : Rider) (rides : list (shared_ptr RideObject))
    (ride : shared_ptr RideObject) (os : ostream) :
  Forall non_null (assignedRides d) ->
  Forall non_null (requestedRides r) ->
  Forall non_null rides ->
  (exists os', getDriverInfo d os = Some (tt, os')) /\
  (exists os', viewRides r os = Some (tt, os')) /\
  (exists os', demonstratePolymorphism rides os = Some (tt, os')) /\
  (exists r' os', requestRide r ride os = Some (r', os')) /\
  (exists os', main cout = Some (0%Z, os')).
Proof.
  intros Hd Hr Hrides.
  destruct (non_null_pointers _ Hd) as [ld Ed].
  destruct (non_null_pointers _ Hr) as [lr Er].
  destruct (non_null_pointers _ Hrides) as [l ->].
  repeat split.
  - rewrite (getDriverInfo_run d ld os Ed). eexists; reflexivity.
  - rewrite (viewRides_run r lr os Er). eexists; reflexivity.
  - rewrite demonstratePolymorphism_run. eexists; reflexivity.
  - rewrite requestRide_run. do 2 eexists; reflexivity.
  - eexists. vm_compute. reflexivity.
Qed.

(** Witness of C8: the first driver and the first rider of [main]. *)
Lemma reports_complete_on_non_null_rides_witness :
  let standardRide1 :=
    make_shared (IsStandardRide (StandardRide_new 1 "Downtown" "Airport" (literal 155 1))) in
  let premiumRide1 :=
    make_shared (IsPremiumRide (PremiumRide_new 2 "Hotel" "Convention Center" (literal 82 1))) in
  let d := addRide (addRide (Driver_new 101 "John Smith" (literal 48 1))
                            standardRide1) premiumRide1 in
  let r := mk_Rider 201 "Alice Brown" [standardRide1] in
  (exists os', getDriverInfo d cout = Some (tt, os')) /\
  (exists os', viewRides r cout = Some (tt, os')) /\
  (exists os', demonstratePolymorphism [standardRide1; premiumRide1] cout
               = Some (tt, os')) /\
  (exists r' os', requestRide r premiumRide1 cout = Some (r', os')) /\
  (exists os', main cout = Some (0%Z, os')).
Proof.
  intros standardRide1 premiumRide1 d r.
  apply (reports_complete_on_non_null_rides
           d r [standardRide1; premiumRide1] premiumRide1 cout);
    repeat constructor; discriminate.
Defined.

(** C8 as stated fails: [addRide], [requestRide] and
    [demonstratePolymorphism] accept a null pointer, and the report that
    follows dereferences it. *)
Lemma null_ride_is_dereferenced :
  getDriverInfo (addRide (Driver_new 101 "John Smith" (literal 48 1)) nullptr) cout
    = None /\
  (exists r os,
     requestRide (Rider_new 201 "Alice Brown") nullptr cout = Some (r, os) /\
     viewRides r os = None) /\
  demonstratePolymorphism [nullptr] cout = None.
Proof.
  split; [reflexivity | split; [ | reflexivity]].
  do 2 eexists. split; reflexivity.
Qed.


(** * Further properties of the code *)

(** ** Sign and NaN of a fare *)

Section FareSign.

(** Rounding keeps the sign it is given. *)
Lemma binary_round_aux_sign (s : bool) (m e : Z) (l : location) :
  (0 <= m)%Z ->
  match binary_round_aux prec emax s m e l with
  | S754_zero s' | S754_infinity s' | S754_finite s' _ _ => s' = s
  | S754_nan => False
  end.
Proof.
  intros Hm. unfold binary_round_aux.
  pose proof (shr_fexp_nonneg m e l Hm) as H1.
  destruct (shr_fexp prec emax m e l) as [mrs' e']; simpl in H1.
  pose proof (shr_fexp_nonneg _ e' loc_Exact
                (round_nearest_even_nonneg _ (loc_of_shr_record mrs') H1)) as H2.
  destruct (shr_fexp prec emax _ e' loc_Exact) as [mrs'' e'']; simpl in H2.
  destruct (shr_m mrs'') as [ | q | q ]; try reflexivity.
  - destruct (e'' <=? emax - prec)%Z; reflexivity.
  - lia.
Qed.

(** [0 <= x]: [x] is a zero of either sign, or positive, or +infinity. *)
Lemma leb_zero_cases (x : double) :
  leb zero x = true <->
  match x with
  | S754_zero _ => True
  | S754_infinity s | S754_finite s _ _ => s = false
  | S754_nan => False
  end.
Proof.
  destruct x as [[ | ] | [ | ] | | [ | ] m e]; simpl; split; intros H;
    try reflexivity; try discriminate; try exact I; try contradiction.
Qed.

(** [x <= 0]: a zero, or negative, or -infinity. *)
Lemma leb_cases_zero (x : double) :
  leb x zero = true <->
  match x with
  | S754_zero _ => True
  | S754_infinity s | S754_finite s _ _ => s = true
  | S754_nan => False
  end.
Proof.
  destruct x as [[ | ] | [ | ] | | [ | ] m e]; simpl; split; intros H;
    try reflexivity; try discriminate; try exact I; try contradiction.
Qed.

(** A product with a positive finite factor keeps the side of zero. *)
Lemma mul_positive_nonneg (x : double) (m : positive) (e : Z) :
  leb zero x = true -> leb zero (mul x (S754_finite false m e)) = true.
Proof.
  rewrite !leb_zero_cases.
  destruct x as [s | s | | s mx ex]; simpl; try tauto.
  - intros ->. reflexivity.
  - intros ->.
    pose proof (binary_round_aux_sign false (Zpos (mx * m)) (ex + e)
                  loc_Exact ltac:(lia)) as H.
    simpl. destruct (binary_round_aux _ _ _ _ _ _); tauto.
Qed.

Lemma mul_positive_nonpos (x : double) (m : positive) (e : Z) :
  leb x zero = true -> leb (mul x (S754_finite false m e)) zero = true.
Proof.
  rewrite !leb_cases_zero.
  destruct x as [s | s | | s mx ex]; simpl; try tauto.
  - intros ->. reflexivity.
  - intros ->.
    pose proof (binary_round_aux_sign true (Zpos (mx * m)) (ex + e)
                  loc_Exact ltac:(lia)) as H.
    simpl. destruct (binary_round_aux _ _ _ _ _ _); tauto.
Qed.

Lemma mul_finite_nan (x : double) (s : bool) (m : positive) (e : Z) :
  is_nan (mul x (S754_finite s m e)) = is_nan x.
Proof.
  destruct x as [sx | sx | | sx mx ex]; try reflexivity.
  apply mul_finite_not_nan. reflexivity.
Qed.

Variables (id : Z) (pickup dropoff : string).

(** X1. For a ride built by any of the three constructors, [fare()] is a
    NaN exactly when the distance is: the rates and the multiplier are
    finite and not zero, so no [infinity * 0] can arise. *)
Theorem fare_is_NaN_exactly_for_NaN_distance (d : double) :
  is_nan (fare (IsRide (Ride_new id pickup dropoff d))) = is_nan d /\
  is_nan (fare (IsStandardRide (StandardRide_new id pickup dropoff d)))
    = is_nan d /\
  is_nan (fare (IsPremiumRide (PremiumRide_new id pickup dropoff d)))
    = is_nan d.
Proof.
  split; [ | split].
  - apply mul_finite_nan.
  - apply mul_finite_nan.
  - simpl. unfold PremiumRide_fare. simpl.
    unfold d1_8, d3_5. now rewrite !mul_finite_nan.
Qed.

(** X2. A ride built with a distance [d >= 0] has [fare() >= 0], for each
    of the three classes: never negative, never a NaN (it may be
    +infinity). *)
Theorem fare_of_nonnegative_distance_is_nonnegative (d : double) :
  leb zero d = true ->
  leb zero (fare (IsRide (Ride_new id pickup dropoff d))) = true /\
  leb zero (fare (IsStandardRide (StandardRide_new id pickup dropoff d)))
    = true /\
  leb zero (fare (IsPremiumRide (PremiumRide_new id pickup dropoff d)))
    = true.
Proof.
  intros Hd. split; [ | split].
  - apply mul_positive_nonneg, Hd.
  - apply mul_positive_nonneg, Hd.
  - simpl. unfold PremiumRide_fare. simpl.
    apply mul_positive_nonneg, mul_positive_nonneg, Hd.
Qed.

(** X3. Nothing rejects a distance [d <= 0]: the ride is built and its
    [fare()] is [<= 0], for each of the three classes. *)
Theorem fare_of_nonpositive_distance_is_nonpositive (d : double) :
  leb d zero = true ->
  leb (fare (IsRide (Ride_new id pickup dropoff d))) zero = true /\
  leb (fare (IsStandardRide (StandardRide_new id pickup dropoff d))) zero
    = true /\
  leb (fare (IsPremiumRide (PremiumRide_new id pickup dropoff d))) zero
    = true.
Proof.
  intros Hd. split; [ | split].
  - apply mul_positive_nonpos, Hd.
  - apply mul_positive_nonpos, Hd.
  - simpl. unfold PremiumRide_fare. simpl.
    apply mul_positive_nonpos, mul_positive_nonpos, Hd.
Qed.

End FareSign.

(** Witness of X2: 8.2 miles. *)
Lemma fare_of_nonnegative_distance_is_nonnegative_witness :
  leb zero (literal 82 1) = true /\
  leb zero (fare (IsPremiumRide (PremiumRide_new 2 "Hotel" "Convention Center"
                                   (literal 82 1)))) = true.
Proof.
  split; [reflexivity | ].
  apply (fare_of_nonnegative_distance_is_nonnegative
           2 "Hotel" "Convention Center" (literal 82 1)).
  reflexivity.
Defined.

(** Witness of X3: -1.0 miles. *)
Lemma fare_of_nonpositive_distance_is_nonpositive_witness :
  leb (of_Z (-1)) zero = true /\
  leb (fare (IsStandardRide (StandardRide_new 1 "A" "B" (of_Z (-1))))) zero
    = true.
Proof.
  split; [reflexivity | ].
  apply (fare_of_nonpositive_distance_is_nonpositive 1 "A" "B" (of_Z (-1))).
  reflexivity.
Defined.

(** ** A standard fare has no rounding error *)

Section ExactDoubling.

Lemma digits2_pos_bounds (m : positive) :
  (2 ^ (Zpos (digits2_pos m) - 1) <= Zpos m < 2 ^ Zpos (digits2_pos m))%Z.
Proof.
  induction m as [q IH | q IH | ]; cbn [digits2_pos].
  - rewrite Pos2Z.inj_succ.
    replace (Z.succ (Zpos (digits2_pos q)) - 1)%Z
      with (Z.succ (Zpos (digits2_pos q) - 1))%Z by lia.
    rewrite !Z.pow_succ_r by lia. lia.
  - rewrite Pos2Z.inj_succ.
    replace (Z.succ (Zpos (digits2_pos q)) - 1)%Z
      with (Z.succ (Zpos (digits2_pos q) - 1))%Z by lia.
    rewrite !Z.pow_succ_r by lia. lia.
  - simpl. lia.
Qed.

Lemma shifted_mantissa_digits (m : positive) :
  Zpos (digits2_pos (Pos.mul 4503599627370496 m))
  = (Zpos (digits2_pos m) + 52)%Z.
Proof. cbn [Pos.mul digits2_pos]. lia. Qed.

(** [x * 2.0] for a binary64 number [x]: the exponent goes up by one, or
    for a subnormal the mantissa doubles; past the largest exponent the
    product is an infinity. *)
Lemma mul_two_exact (s : bool) (m : positive) (e : Z) :
  bounded prec emax m e = true ->
  mul (S754_finite s m e) d2_0 =
  if (Zpos (digits2_pos m) =? 53)%Z
  then if (e + 1 <=? emax - prec)%Z then S754_finite s m (e + 1)
       else S754_infinity s
  else S754_finite s (m~0) e.
Proof.
  unfold bounded, canonical_mantissa, fexp, emin, prec, emax.
  intros H. apply andb_prop in H. destruct H as [Hc He].
  apply Z.eqb_eq in Hc. apply Z.leb_le in He.
  unfold mul, d2_0, SFmul. rewrite xorb_false_r.
  rewrite (Pos.mul_comm m).
  unfold binary_round_aux, shr_fexp, Zdigits2.
  rewrite shifted_mantissa_digits.
  unfold fexp, emin, prec, emax.
  destruct (Z.eqb_spec (Zpos (digits2_pos m)) 53) as [D | D].
  - replace (Z.max (Z.pos (digits2_pos m) + 52 + (e + -51) - 53)
                   (3 - 1024 - 53) - (e + -51))%Z with 52%Z by lia.
    cbn [Pos.mul shr shr_record_of_loc iter_pos shr_1 orb].
    cbn [round_nearest_even shr_m loc_of_shr_record].
    replace (Z.max (Z.pos (digits2_pos m) + (e + -51 + 52) - 53)
                   (3 - 1024 - 53) - (e + -51 + 52))%Z with 0%Z by lia.
    cbn [shr shr_m].
    replace (e + -51 + 52)%Z with (e + 1)%Z by lia.
    reflexivity.
  - assert (e = -1074 /\ Zpos (digits2_pos m) < 53)%Z as [-> D'] by lia.
    replace (Z.max (Z.pos (digits2_pos m) + 52 + (-1074 + -51) - 53)
                   (3 - 1024 - 53) - (-1074 + -51))%Z with 51%Z by lia.
    cbn [Pos.mul shr shr_record_of_loc iter_pos shr_1 orb].
    cbn [round_nearest_even shr_m loc_of_shr_record digits2_pos].
    replace (Z.max (Z.pos (Pos.succ (digits2_pos m)) + (-1074 + -51 + 51) - 53)
                   (3 - 1024 - 53) - (-1074 + -51 + 51))%Z with 0%Z by lia.
    cbn [shr shr_m]. reflexivity.
Qed.

Variables (id : Z) (pickup dropoff : string).

(** X4. The fare of a StandardRide (and of a base Ride) is exactly twice
    the distance, with no rounding error, for every finite binary64
    distance below 2^1023 in magnitude; from 2^1023 on it is the infinity
    of the distance's sign.  Values are counted in units of 2^-1074. *)
Theorem StandardRide_fare_doubles_exactly (d : double) (v : Z) :
  valid_binary prec emax d = true ->
  scaled_value d = Some v ->
  let f := fare (IsStandardRide (StandardRide_new id pickup dropoff d)) in
  fare (IsRide (Ride_new id pickup dropoff d)) = f /\
  if (Z.abs v <? 2 ^ 2097)%Z
  then scaled_value f = Some (2 * v)%Z
  else f = S754_infinity (v <? 0)%Z.
Proof.
  intros Hvalid Hv f. split; [reflexivity | ].
  change f with (mul d d2_0). clear f.
  destruct d as [s | s | | s m e]; try discriminate.
  - injection Hv as <-. reflexivity.
  - cbn [valid_binary] in Hvalid.
    assert (Hv' : v = cond_Zopp s (Zpos m * 2 ^ (e + 1074)))
      by (unfold scaled_value in Hv; congruence).
    subst v. clear Hv.
    rewrite (mul_two_exact s m e Hvalid).
    pose proof (digits2_pos_bounds m) as Hm.
    unfold bounded, canonical_mantissa, fexp, emin, prec, emax in Hvalid.
    apply andb_prop in Hvalid. destruct Hvalid as [Hc He].
    apply Z.eqb_eq in Hc. apply Z.leb_le in He.
    assert (He0 : (0 <= e + 1074)%Z) by (clear - Hc; lia).
    assert (Hpow : (0 < 2 ^ (e + 1074))%Z) by (apply Z.pow_pos_nonneg; lia).
    assert (Hpos : (0 < Zpos m * 2 ^ (e + 1074))%Z)
      by (apply Z.mul_pos_pos; lia).
    assert (Habs : Z.abs (cond_Zopp s (Zpos m * 2 ^ (e + 1074)))
                   = (Zpos m * 2 ^ (e + 1074))%Z)
      by (destruct s; unfold cond_Zopp; lia).
    rewrite Habs.
    destruct (Z.eqb_spec (Zpos (digits2_pos m)) 53) as [D | D].
    + rewrite D in Hm. unfold prec, emax.
      destruct (Z.leb_spec (e + 1) (1024 - 53)) as [He1 | He1].
      * assert (Hlt : (Zpos m * 2 ^ (e + 1074) < 2 ^ 2097)%Z).
        { assert (2 ^ (e + 1074) <= 2 ^ 2044)%Z
            by (apply Z.pow_le_mono_r; lia).
          change (2 ^ 2097)%Z with (2 ^ 53 * 2 ^ 2044)%Z.
          apply Z.le_lt_trans with (Zpos m * 2 ^ 2044)%Z.
          - apply Z.mul_le_mono_nonneg_l; lia.
          - apply Z.mul_lt_mono_pos_r; [reflexivity | lia]. }
        apply Z.ltb_lt in Hlt. rewrite Hlt.
        cbn [scaled_value]. f_equal.
        replace (e + 1 + 1074)%Z with (Z.succ (e + 1074)) by lia.
        rewrite Z.pow_succ_r by lia.
        destruct s; unfold cond_Zopp; ring.
      * assert (e = 971)%Z by lia. subst e.
        assert (Hge : (2 ^ 2097 <= Zpos m * 2 ^ (971 + 1074))%Z).
        { change (2 ^ 2097)%Z with (2 ^ (53 - 1) * 2 ^ (971 + 1074))%Z.
          apply Z.mul_le_mono_nonneg_r; lia. }
        apply Z.ltb_ge in Hge. rewrite Hge.
        f_equal. destruct s; unfold cond_Zopp; symmetry.
        -- apply Z.ltb_lt. lia.
        -- apply Z.ltb_ge. lia.
    + assert (e = -1074 /\ Zpos (digits2_pos m) < 53)%Z as [-> D'] by lia.
      assert (Hlt : (Zpos m * 2 ^ (-1074 + 1074) < 2 ^ 2097)%Z).
      { change (2 ^ (-1074 + 1074))%Z with 1%Z.
        assert (2 ^ Zpos (digits2_pos m) <= 2 ^ 53)%Z
          by (apply Z.pow_le_mono_r; lia).
        assert (2 ^ 53 < 2 ^ 2097)%Z by reflexivity.
        lia. }
      apply Z.ltb_lt in Hlt. rewrite Hlt.
      cbn [scaled_value]. f_equal.
      change (2 ^ (-1074 + 1074))%Z with 1%Z.
      destruct s; unfold cond_Zopp; lia.
Qed.

End ExactDoubling.

(** Witness of X4: 15.5 miles is 31 * 2^1073 units, the fare twice that. *)
Lemma StandardRide_fare_doubles_exactly_witness :
  let d := literal 155 1 in
  valid_binary prec emax d = true /\
  scaled_value d = Some (31 * 2 ^ 1073)%Z /\
  scaled_value (fare (IsStandardRide (StandardRide_new 1 "Downtown" "Airport" d)))
  = Some (2 * (31 * 2 ^ 1073))%Z.
Proof.
  split; [reflexivity | split; [reflexivity | ]].
  apply (StandardRide_fare_doubles_exactly
           1 "Downtown" "Airport" (literal 155 1) (31 * 2 ^ 1073));
    reflexivity.
Defined.

(** ** Totals *)

Section Totals.

(** A sum of two doubles [>= 0] is [>= 0]. *)
Lemma add_nonneg (x y : double) :
  leb zero x = true -> leb zero y = true -> leb zero (add x y) = true.
Proof.
  rewrite !leb_zero_cases.
  destruct x as [sx | sx | | sx mx ex], y as [sy | sy | | sy my ey];
    try contradiction; intros Hx Hy; subst; try exact I; try reflexivity.
  - destruct sx, sy; exact I.
  - unfold add, SFadd.
    set (a := fst (shl_align mx ex (Z.min ex ey))).
    set (b := fst (shl_align my ey (Z.min ex ey))).
    change (cond_Zopp false (Zpos a) + cond_Zopp false (Zpos b))%Z
      with (Zpos (a + b)).
    unfold binary_normalize, binary_round.
    destruct (shl_align (a + b) (Z.min ex ey) _) as [mz ez].
    pose proof (binary_round_aux_sign false (Zpos mz) ez loc_Exact
                  ltac:(lia)) as H.
    destruct (binary_round_aux _ _ _ _ _ _); tauto.
Qed.

Lemma fold_add_nonneg (fares : list double) :
  Forall (fun x => leb zero x = true) fares ->
  forall acc, leb zero acc = true ->
  leb zero (fold_left add fares acc) = true.
Proof.
  induction 1 as [ | x fares Hx _ IH]; intros acc Hacc; simpl.
  - exact Hacc.
  - apply IH, add_nonneg; assumption.
Qed.

(** X5. When every ride added to a new Driver has [fare() >= 0], the total
    that [getDriverInfo] reports is [>= 0]: the running sum never turns
    negative and never becomes a NaN. *)
Theorem Driver_total_of_nonnegative_fares_is_nonnegative
    (id : Z) (name : string) (driverRating : double)
    (rides : list RideObject) (os : ostream) :
  Forall (fun o => leb zero (fare o) = true) rides ->
  exists total : double,
    leb zero total = true /\
    getDriverInfo (addRides (Driver_new id name driverRating) rides) os =
    Some (tt, mk_ostream true 2
      (text os ++
       driver_report id name
         (show_double (fixed_flag os) (precision os) driverRating)
         (List.length rides) total)).
Proof.
  intros H. exists (sum_fares rides). split.
  - unfold sum_fares. apply fold_add_nonneg; [ | reflexivity].
    induction H; constructor; assumption.
  - apply getDriverInfo_addRides.
Qed.

(** X6. A Driver, a Rider and the demonstration routine given the same
    rides in the same order, whose fares do not sum to a NaN, end their
    reports with the same amount: each recomputes it from [fare()] by the
    same additions. *)
Theorem reports_agree_on_total
    (id : Z) (name : string) (driverRating : double)
    (rid : Z) (rname : string) (rides : list RideObject) (os : ostream) :
  is_nan (sum_fares rides) = false ->
  let amount := show_fixed 2 (sum_fares rides) in
  exists (rider : Rider) (os1 os2 os3 os4 : ostream)
         (before2 before3 before4 : string),
    getDriverInfo (addRides (Driver_new id name driverRating) rides) os
      = Some (tt, os2) /\
    text os2 = before2 ++ "Total Earnings: $" ++ amount ++ nl /\
    requestRides (Rider_new rid rname) rides os = Some (rider, os1) /\
    viewRides rider os1 = Some (tt, os3) /\
    text os3 = before3 ++ "Total Amount Spent: $" ++ amount ++ nl /\
    demonstratePolymorphism (map make_shared rides) os = Some (tt, os4) /\
    text os4 = before4 ++ "Total Fares for All Rides: $" ++ amount ++ nl.
Proof.
  destruct (requestRides_run rides (Rider_new rid rname) os)
    as (os1 & E & _ & _).
  intros _ amount. unfold amount.
  eexists; exists os1. do 3 eexists.
  exists (text os ++ nl ++ "=== DRIVER INFORMATION ===" ++ nl ++
          "Driver ID: " ++ show_Z id ++ nl ++
          "Name: " ++ name ++ nl ++
          "Rating: " ++ show_double (fixed_flag os) (precision os) driverRating
                     ++ "/5.0" ++ nl ++
          "Total Rides Completed: "
            ++ show_N (N.of_nat (List.length rides)) ++ nl).
  exists (text os1 ++ nl ++ "=== RIDER RIDE HISTORY ===" ++ nl ++
          "Rider: " ++ rname ++ " (ID: " ++ show_Z rid ++ ")" ++ nl ++
          "Total Rides: " ++ show_N (N.of_nat (List.length rides)) ++ nl ++
          history_text 0 rides (fixed_flag os1) (precision os1) ++ nl).
  exists (text os ++ nl ++ "=== POLYMORPHISM DEMONSTRATION ===" ++ nl ++
          "Processing different ride types polymorphically:" ++ nl ++
          demonstration_text rides (fixed_flag os) (precision os) ++ nl).
  split; [apply getDriverInfo_addRides | ].
  split; [cbn [text]; rewrite ?append_assoc; reflexivity | ].
  split; [exact E | ].
  split; [apply (viewRides_run _ rides); reflexivity | ].
  split; [cbn [text]; rewrite ?append_assoc; reflexivity | ].
  split; [apply demonstratePolymorphism_run | ].
  cbn [text]. rewrite ?append_assoc. reflexivity.
Qed.

End Totals.

(** Witness of X6: the first two rides of [main]. *)
Lemma reports_agree_on_total_witness :
  let rides :=
    [IsStandardRide (StandardRide_new 1 "Downtown" "Airport" (literal 155 1));
     IsPremiumRide (PremiumRide_new 2 "Hotel" "Convention Center" (literal 82 1))] in
  is_nan (sum_fares rides) = false /\
  exists (os2 : ostream) (before2 : string),
    getDriverInfo (addRides (Driver_new 101 "John Smith" (literal 48 1)) rides) cout
      = Some (tt, os2) /\
    text os2 = before2 ++ "Total Earnings: $" ++ show_fixed 2 (sum_fares rides) ++ nl.
Proof.
  intros rides.
  assert (H : is_nan (sum_fares rides) = false) by reflexivity.
  split; [exact H | ].
  destruct (reports_agree_on_total 101 "John Smith" (literal 48 1)
              201 "Alice Brown" rides cout H)
    as (rider & os1 & os2 & os3 & os4 & before2 & before3 & before4
        & E2 & T2 & _).
  exists os2, before2. split; assumption.
Defined.

(** Witness of X5: the first driver of [main]. *)
Lemma Driver_total_of_nonnegative_fares_is_nonnegative_witness :
  let rides :=
    [IsStandardRide (StandardRide_new 1 "Downtown" "Airport" (literal 155 1));
     IsPremiumRide (PremiumRide_new 2 "Hotel" "Convention Center" (literal 82 1))] in
  Forall (fun o => leb zero (fare o) = true) rides /\
  exists total : double,
    leb zero total = true /\
    getDriverInfo (addRides (Driver_new 101 "John Smith" (literal 48 1)) rides) cout =
    Some (tt, mk_ostream true 2
      (text cout ++
       driver_report 101 "John Smith"
         (show_double (fixed_flag cout) (precision cout) (literal 48 1))
         (List.length rides) total)).
Proof.
  intros rides.
  assert (H : Forall (fun o => leb zero (fare o) = true) rides)
    by (repeat constructor).
  split; [exact H | ].
  exact (Driver_total_of_nonnegative_fares_is_nonnegative
           101 "John Smith" (literal 48 1) rides cout H).
Defined.

(** ** Sticky stream flags *)

Section StickyFlags.

Variable os : ostream.

(** X7. [rideDetails] leaves the stream in fixed mode with precision 2,
    whatever it was: of two blocks written one after the other, the second
    shows its distance with two decimals. *)
Theorem rideDetails_leaves_two_decimals (o1 o2 : RideObject) :
  fixed_flag (rideDetails o1 os) = true /\
  precision (rideDetails o1 os) = 2%nat /\
  text (rideDetails o2 (rideDetails o1 os)) =
    text os ++ details_text o1 (fixed_flag os) (precision os)
            ++ details_text o2 true 2 /\
  detail_head (as_Ride o2) true 2 =
    "Ride ID: " ++ show_Z (rideID (as_Ride o2)) ++ nl ++
    "Pickup: " ++ pickupLocation (as_Ride o2) ++ nl ++
    "Dropoff: " ++ dropoffLocation (as_Ride o2) ++ nl ++
    "Distance: " ++ show_fixed 2 (distance (as_Ride o2)) ++ " miles" ++ nl.
Proof.
  rewrite !rideDetails_text. cbn [fixed_flag precision text].
  rewrite ?append_assoc. repeat split.
Qed.

(** X8. For a PremiumRide built by the constructor the multiplier line is
    always [Luxury Multiplier: 1.80x], on any stream: it is written after
    the base block has switched the stream to two decimals. *)
Theorem PremiumRide_multiplier_line_is_1_80x
    (id : Z) (pickup dropoff : string) (d : double) :
  let this := IsPremiumRide (PremiumRide_new id pickup dropoff d) in
  text (rideDetails this os) =
    text os ++ premium_banner
            ++ detail_block this (fixed_flag os) (precision os)
            ++ "Luxury Multiplier: 1.80x" ++ nl.
Proof.
  intros this. unfold this. rewrite rideDetails_text. reflexivity.
Qed.

(** X9. [getDriverInfo] leaves the stream in fixed mode with precision 2:
    of two reports in a row, neither with a NaN for its total, the first
    shows its rating as the stream was set, the second with two
    decimals. *)
Theorem second_driver_report_shows_rating_with_two_decimals
    (id1 id2 : Z) (name1 name2 : string) (rating1 rating2 : double)
    (rides1 rides2 : list RideObject) :
  is_nan (sum_fares rides1) = false ->
  is_nan (sum_fares rides2) = false ->
  let driver1 := addRides (Driver_new id1 name1 rating1) rides1 in
  let driver2 := addRides (Driver_new id2 name2 rating2) rides2 in
  (getDriverInfo driver1 ;; getDriverInfo driver2) os =
  Some (tt, mk_ostream true 2
    (text os ++
     driver_report id1 name1
       (show_double (fixed_flag os) (precision os) rating1)
       (List.length rides1) (sum_fares rides1) ++
     driver_report id2 name2 (show_fixed 2 rating2)
       (List.length rides2) (sum_fares rides2))).
Proof.
  intros _ _ driver1 driver2. unfold bind, driver1, driver2.
  rewrite !getDriverInfo_addRides.
  cbn [fixed_flag precision text]. unfold driver_report, show_double.
  rewrite ?append_assoc. reflexivity.
Qed.

(** X10. With no ride at all: a new Driver reports 0 rides and 0.00, and
    the demonstration routine on an empty sequence writes its two header
    lines and a total of 0.00. *)
Theorem reports_on_no_ride (id : Z) (name : string) (driverRating : double) :
  getDriverInfo (Driver_new id name driverRating) os =
    Some (tt, mk_ostream true 2
      (text os ++ nl ++ "=== DRIVER INFORMATION ===" ++ nl ++
       "Driver ID: " ++ show_Z id ++ nl ++
       "Name: " ++ name ++ nl ++
       "Rating: " ++ show_double (fixed_flag os) (precision os) driverRating
                  ++ "/5.0" ++ nl ++
       "Total Rides Completed: 0" ++ nl ++
       "Total Earnings: $0.00" ++ nl)) /\
  demonstratePolymorphism [] os =
    Some (tt, mk_ostream true 2
      (text os ++ nl ++ "=== POLYMORPHISM DEMONSTRATION ===" ++ nl ++
       "Processing different ride types polymorphically:" ++ nl ++
       nl ++ "Total Fares for All Rides: $0.00" ++ nl)).
Proof.
  split.
  - rewrite (getDriverInfo_addRides id name driverRating []). reflexivity.
  - rewrite (demonstratePolymorphism_run []). reflexivity.
Qed.

End StickyFlags.

(** Witness of X9: the two drivers of [main]. *)
Lemma second_driver_report_shows_rating_with_two_decimals_witness :
  let rides1 :=
    [IsStandardRide (StandardRide_new 1 "Downtown" "Airport" (literal 155 1));
     IsPremiumRide (PremiumRide_new 2 "Hotel" "Convention Center" (literal 82 1))] in
  let rides2 :=
    [IsStandardRide (StandardRide_new 3 "Mall" "University" (literal 120 1));
     IsPremiumRide (PremiumRide_new 4 "Airport" "Luxury Resort" (literal 258 1))] in
  is_nan (sum_fares rides1) = false /\
  is_nan (sum_fares rides2) = false /\
  exists os' : ostream,
    (getDriverInfo (addRides (Driver_new 101 "John Smith" (literal 48 1)) rides1) ;;
     getDriverInfo (addRides (Driver_new 102 "Sarah Johnson" (literal 49 1)) rides2))
      cout = Some (tt, os').
Proof.
  intros rides1 rides2.
  assert (H1 : is_nan (sum_fares rides1) = false) by reflexivity.
  assert (H2 : is_nan (sum_fares rides2) = false) by reflexivity.
  split; [exact H1 | split; [exact H2 | ]].
  eexists.
  exact (second_driver_report_shows_rating_with_two_decimals
           cout 101 102 "John Smith" "Sarah Johnson" (literal 48 1) (literal 49 1)
           rides1 rides2 H1 H2).
Defined.

(** ** Counting rides *)

Section Counting.

(** X11. [addRide] takes any pointer, null or already present, and only
    grows the collection: after a sequence of calls the ride count has
    grown by their number, and id, name and rating are unchanged. *)
Theorem addRide_counts_every_call
    (d : Driver) (rides : list (shared_ptr RideObject)) :
  let d' := fold_left addRide rides d in
  Driver_getRideCount d' = (Driver_getRideCount d + N.of_nat (List.length rides))%N /\
  getDriverID d' = getDriverID d /\
  Driver_getName d' = Driver_getName d /\
  getRating d' = getRating d.
Proof.
  revert d. induction rides as [ | p rest IH]; intros d; cbn [fold_left].
  - cbn [List.length]. repeat split. lia.
  - destruct (IH (addRide d p)) as (Hc & Hi & Hn & Hr).
    cbv zeta. rewrite Hc, Hi, Hn, Hr.
    unfold Driver_getRideCount, addRide. cbn [assignedRides].
    rewrite length_app. cbn [List.length]. repeat split. lia.
Qed.

(** X12. [requestRide] takes any pointer too: a sequence of calls never
    fails, grows the ride count by the number of calls, keeps id and name,
    writes one confirmation line per call and leaves the stream flags
    alone. *)
Theorem requestRide_counts_every_call
    (rides : list (shared_ptr RideObject)) (r : Rider) (os : ostream) :
  exists r' : Rider,
    for_each requestRide rides r os =
      Some (r', mk_ostream (fixed_flag os) (precision os)
                  (text os ++
                   repeat_text (List.length rides)
                     (request_line (Rider_getName r) (getRiderID r)))) /\
    Rider_getRideCount r' =
      (Rider_getRideCount r + N.of_nat (List.length rides))%N /\
    getRiderID r' = getRiderID r /\
    Rider_getName r' = Rider_getName r.
Proof.
  revert r os. induction rides as [ | p rest IH]; intros r os.
  - exists r. destruct os as [fx pr t]. cbn. rewrite append_nil_r.
    repeat split. lia.
  - cbn [for_each]. unfold bind at 1. rewrite requestRide_run.
    destruct (IH (mk_Rider (riderID r) (rider_name r) (requestedRides r ++ [p]))
                 (mk_ostream (fixed_flag os) (precision os)
                    (text os ++ "Ride requested by " ++ rider_name r ++
                     " (ID: " ++ show_Z (riderID r) ++ ")" ++ nl)))
      as (r' & E & Hc & Hi & Hn).
    exists r'. rewrite E. cbn [fixed_flag precision text] in *.
    unfold Rider_getRideCount, getRiderID, Rider_getName in *.
    cbn [riderID rider_name requestedRides List.length repeat_text] in *.
    rewrite length_app in Hc. cbn [List.length] in Hc.
    unfold request_line. rewrite ?append_assoc.
    repeat split; try assumption. lia.
Qed.

End Counting.

(** ** Null pointers *)

Ltac step_statements :=
  repeat (first [ rewrite bind_assoc | rewrite bind_print
                | rewrite bind_at_index | rewrite bind_deref
                | rewrite bind_ret ]; cbv beta).

Section NullPointers.

Lemma for_each_app {A S : Type} (body : S -> A -> io S) (l1 l2 : list A) :
  forall (s : S) (os : ostream),
  for_each body (l1 ++ l2) s os =
  (s' <- for_each body l1 s ;; for_each body l2 s') os.
Proof.
  induction l1 as [ | x l1 IH]; intros s os; cbn [for_each app].
  - reflexivity.
  - unfold bind.
    destruct (body s x os) as [[s' os'] | ]; [ | reflexivity].
    rewrite IH. reflexivity.
Qed.

(** A sequence of pointers holds a null one, with rides before it, or
    holds rides only. *)
Lemma first_null (v : list (shared_ptr RideObject)) :
  (exists rides post, v = (map make_shared rides ++ nullptr :: post)%list) \/
  (exists rides, v = map make_shared rides).
Proof.
  induction v as [ | p v IH].
  - right. exists []. reflexivity.
  - destruct p as [o | ].
    + destruct IH as [(rides & post & ->) | (rides & ->)].
      * left. exists (o :: rides), post. reflexivity.
      * right. exists (o :: rides). reflexivity.
    + left. exists [], v. reflexivity.
Qed.

Lemma null_in_middle (rides : list RideObject)
                     (post : list (shared_ptr RideObject)) :
  In nullptr (map make_shared rides ++ nullptr :: post).
Proof. apply in_or_app. right. left. reflexivity. Qed.

Lemma no_null_among_rides (rides : list RideObject) :
  ~ In nullptr (map make_shared rides).
Proof.
  induction rides as [ | o rest IH]; simpl; [tauto | ].
  intros [H | H]; [discriminate | tauto].
Qed.

Lemma getDriverInfo_null (d : Driver) (rides : list RideObject)
                         (post : list (shared_ptr RideObject)) (os : ostream) :
  assignedRides d = (map make_shared rides ++ nullptr :: post)%list ->
  getDriverInfo d os = None.
Proof.
  intros E. unfold getDriverInfo. rewrite E, bind_print.
  unfold bind at 1. rewrite for_each_app.
  unfold bind at 1. rewrite earnings_loop. reflexivity.
Qed.

Lemma demonstratePolymorphism_null (rides : list RideObject)
    (post : list (shared_ptr RideObject)) (os : ostream) :
  demonstratePolymorphism (map make_shared rides ++ nullptr :: post) os = None.
Proof.
  unfold demonstratePolymorphism. rewrite bind_print.
  unfold bind at 1. rewrite for_each_app.
  unfold bind at 1. rewrite demonstration_loop. reflexivity.
Qed.

(** The loop of [viewRides] over the rides [rest], whatever follows them in
    the vector. *)
Lemma history_loop_prefix (this : Rider) (rest : list RideObject)
                          (tail : list (shared_ptr RideObject)) :
  forall (pre : list (shared_ptr RideObject)) (acc : double) (os : ostream),
  requestedRides this = (pre ++ map make_shared rest ++ tail)%list ->
  for_each (fun totalSpent i =>
               print (fun os =>
                 os << (nl ++ "--- Ride ") << N.of_nat (i + 1) << " ---" << endl) ;;
               p <- at_index (requestedRides this) i ;;
               o <- deref p ;;
               print (rideDetails o) ;;
               p <- at_index (requestedRides this) i ;;
               o <- deref p ;;
               ret (add totalSpent (fare o)))
           (seq (List.length pre) (List.length rest)) acc os
  = Some (fold_left add (map fare rest) acc,
          mk_ostream (fst (flags_after rest os)) (snd (flags_after rest os))
            (text os ++
             history_text (List.length pre) rest (fixed_flag os) (precision os))).
Proof.
  induction rest as [ | o rest IH]; intros pre acc os E.
  - destruct os as [fx pr t]. simpl. now rewrite append_nil_r.
  - cbn [map app] in E.
    cbn [List.length seq for_each map fold_left].
    rewrite E. step_statements. rewrite <- E.
    replace (S (List.length pre))
      with (List.length (pre ++ [make_shared o])%list)
      by (rewrite length_app; simpl; lia).
    rewrite IH by (rewrite E, <- app_assoc; reflexivity).
    rewrite rideDetails_text, flags_after_details.
    destruct os as [fx pr t]. stream_text.
    cbn [fst snd flags_after history_text].
    rewrite length_app. cbn [List.length].
    rewrite Nat.add_1_r, ?append_assoc. reflexivity.
Qed.

Lemma viewRides_null (this : Rider) (rides : list RideObject)
                     (post : list (shared_ptr RideObject)) (os : ostream) :
  requestedRides this = (map make_shared rides ++ nullptr :: post)%list ->
  viewRides this os = None.
Proof.
  intros E. unfold viewRides, for_index. rewrite bind_print.
  unfold bind at 1.
  replace (List.length (requestedRides this))
    with (List.length rides + S (List.length post))%nat
    by (rewrite E, length_app, length_map; reflexivity).
  rewrite seq_app, for_each_app.
  unfold bind at 1.
  rewrite (history_loop_prefix this rides (nullptr :: post) []) by exact E.
  cbn [seq for_each]. rewrite E.
  replace (0 + List.length rides)%nat
    with (List.length (map make_shared rides)) by (rewrite length_map; lia).
  step_statements. reflexivity.
Qed.

(** X13. A report is undefined exactly when a null pointer is among the
    rides it walks: [getDriverInfo], [viewRides] and
    [demonstratePolymorphism] dereference every pointer, and nothing else
    in them can go wrong. *)
Theorem report_undefined_exactly_on_null
    (d : Driver) (r : Rider) (rides : list (shared_ptr RideObject))
    (os : ostream) :
  (getDriverInfo d os = None <-> In nullptr (assignedRides d)) /\
  (viewRides r os = None <-> In nullptr (requestedRides r)) /\
  (demonstratePolymorphism rides os = None <-> In nullptr rides).
Proof.
  split; [ | split].
  - destruct (first_null (assignedRides d)) as [(l & post & E) | (l & E)].
    + rewrite (getDriverInfo_null d l post os E), E.
      split; intros _; [apply null_in_middle | reflexivity].
    + rewrite (getDriverInfo_run d l os E), E.
      split; [discriminate | intros H; now apply no_null_among_rides in H].
  - destruct (first_null (requestedRides r)) as [(l & post & E) | (l & E)].
    + rewrite (viewRides_null r l post os E), E.
      split; intros _; [apply null_in_middle | reflexivity].
    + rewrite (viewRides_run r l os E), E.
      split; [discriminate | intros H; now apply no_null_among_rides in H].
  - destruct (first_null rides) as [(l & post & ->) | (l & ->)].
    + rewrite demonstratePolymorphism_null.
      split; intros _; [apply null_in_middle | reflexivity].
    + rewrite demonstratePolymorphism_run.
      split; [discriminate | intros H; now apply no_null_among_rides in H].
Qed.

End NullPointers.

(** ** The demonstration routine on any sequence *)

(** X15. On any sequence of rides [demonstratePolymorphism] writes its two
    header lines, then for each ride in order a line with the label of the
    ride's class and the ride's own detail text, then the sum of the fares
    added in that order, with two decimals, for a sum that is not a NaN;
    the first block is written with the stream as it was, the later ones
    with two decimals. *)
Theorem demonstratePolymorphism_writes_one_block_per_ride
    (first : RideObject) (rest : list RideObject) (os : ostream) :
  is_nan (sum_fares (first :: rest)) = false ->
  demonstratePolymorphism (map make_shared (first :: rest)) os =
  Some (tt, mk_ostream true 2
    (text os ++ nl ++ "=== POLYMORPHISM DEMONSTRATION ===" ++ nl ++
     "Processing different ride types polymorphically:" ++ nl ++
     (nl ++ "--- " ++ getRideType first ++ " Ride ---" ++ nl ++
      details_text first (fixed_flag os) (precision os)) ++
     demonstration_text rest true 2 ++
     nl ++ "Total Fares for All Rides: $"
        ++ show_fixed 2 (sum_fares (first :: rest)) ++ nl)).
Proof.
  intros _.
  rewrite demonstratePolymorphism_run. cbn [demonstration_text].
  rewrite ?append_assoc. reflexivity.
Qed.

(** Witness of X15: the first two rides of [main]. *)
Lemma demonstratePolymorphism_writes_one_block_per_ride_witness :
  let first := IsStandardRide (StandardRide_new 1 "Downtown" "Airport" (literal 155 1)) in
  let second := IsPremiumRide (PremiumRide_new 2 "Hotel" "Convention Center" (literal 82 1)) in
  is_nan (sum_fares [first; second]) = false /\
  exists os' : ostream,
    demonstratePolymorphism (map make_shared [first; second]) cout = Some (tt, os').
Proof.
  intros first second.
  assert (H : is_nan (sum_fares [first; second]) = false) by reflexivity.
  split; [exact H | ].
  eexists.
  exact (demonstratePolymorphism_writes_one_block_per_ride first [second] cout H).
Defined.

(** ** The counter closure *)

Section CounterClosure.

Import Closures.

Lemma calls_from (n : nat) :
  forall k : Z,
  (0 <= k)%Z -> (k + Z.of_nat n <= INT_MAX)%Z ->
  calls n (mk_counter k) =
  Some (map (fun i => (k + Z.of_nat i)%Z) (seq 1 n),
        mk_counter (k + Z.of_nat n)).
Proof.
  induction n as [ | n IH]; intros k Hk Hn.
  - cbn. now rewrite Z.add_0_r.
  - cbn [calls]. unfold call. cbn [count].
    destruct (Z.ltb_spec k INT_MAX) as [Hlt | Hge]; [ | lia].
    rewrite IH by lia.
    cbn [seq map]. rewrite <- (seq_shift n 1), map_map.
    replace (k + 1 + Z.of_nat n)%Z with (k + Z.of_nat (S n))%Z by lia.
    do 3 f_equal.
    apply map_ext. intros i. lia.
Qed.

(** X14. A counter made by [makeCounter] returns 1, 2, 3, ... on
    successive calls, up to [INT_MAX] calls; the call after that would
    increment [count] past [INT_MAX], which is undefined. *)
Theorem makeCounter_counts_from_one (n : nat) :
  (Z.of_nat n <= INT_MAX)%Z ->
  calls n makeCounter =
    Some (map Z.of_nat (seq 1 n), mk_counter (Z.of_nat n)) /\
  call (mk_counter INT_MAX) = None.
Proof.
  intros Hn. split; [ | reflexivity].
  unfold makeCounter. rewrite (calls_from n 0) by lia.
  reflexivity.
Qed.

End CounterClosure.

(** Witness of X14: the two calls of [main]. *)
Lemma makeCounter_counts_from_one_witness :
  (Z.of_nat 2 <= Closures.INT_MAX)%Z /\
  Closures.calls 2 Closures.makeCounter
  = Some ([1; 2]%Z, Closures.mk_counter 2).
Proof.
  split; [vm_compute; discriminate | ].
  apply (makeCounter_counts_from_one 2). vm_compute; discriminate.
Defined.
